(** * Transaction lifecycle of the Polkadot ledger connector

    A shallow embedding of [PluginLedgerConnectorPolkadot]
    (plugin-ledger-connector-polkadot.ts): the three [transact] paths,
    [deployContract] and [obtainTransactionInformation], together with the
    promise that bridges the node's subscription callbacks into one outcome.

    The chain-client library (@polkadot/api, @polkadot/util) and the keychain
    plugins are collaborators whose code is not part of the connector; what the
    connector reads from them is gathered in the class [ChainClient] and in the
    notification lists that a submission receives. *)

From stdpp Require Import gmap strings list.
From Stdlib Require Import ZArith Ascii.

Local Open Scope string_scope.
Local Open Scope list_scope.
Local Open Scope stdpp_scope.

(** ** JavaScript values that the connector handles *)

(** A value thrown or used as a rejection reason: the connector rejects with
    plain strings and throws [Error] objects. *)
Inductive JsThrown : Type :=
  | ThrownString (s : string)
  | ThrownError (message : string)
  | ThrownTypeError (message : string).

(** Template-literal rendering [`${e}`]: a string renders as itself, an
    [Error] as ["Error: " + message]. *)
Definition render (e : JsThrown) : string :=
  match e with
  | ThrownString s => s
  | ThrownError m => "Error: " +:+ m
  | ThrownTypeError m => "TypeError: " +:+ m
  end.

(** Request parameters of the constructor ([params: Array<any>]). *)
Inductive JsValue : Type :=
  | JsUndefined
  | JsNull
  | JsBool (b : bool)
  | JsNumber (z : Z)
  | JsString (s : string).

(** Truthiness of an optional string ([if (s)], [!s]). *)
Definition truthy_string (s : option string) : bool :=
  match s with
  | Some (String _ _) => true
  | _ => false
  end.

(** ** Hashes *)

(** A hash is a byte string; each element is read modulo 256. *)
Definition Hash : Type := list N.

Definition hex_digit (n : N) : ascii :=
  match n with
  | 0%N => "0" | 1%N => "1" | 2%N => "2" | 3%N => "3"
  | 4%N => "4" | 5%N => "5" | 6%N => "6" | 7%N => "7"
  | 8%N => "8" | 9%N => "9" | 10%N => "a" | 11%N => "b"
  | 12%N => "c" | 13%N => "d" | 14%N => "e" | _ => "f"
  end%char.

Fixpoint hex_bytes (h : Hash) : string :=
  match h with
  | [] => EmptyString
  | b :: h' =>
      let b := (b mod 256)%N in
      String (hex_digit (b / 16)) (String (hex_digit (b mod 16)) (hex_bytes h'))
  end.

(** [toHex()] of the chain-client library: the bytes in hexadecimal behind
    the prefix ["0x"]. *)
Definition toHex (h : Hash) : string := "0x" +:+ hex_bytes h.

(** ** Completion of an asynchronous method, with the collaborator calls made *)

Inductive KeyringPair : Type := MkPair (uri : string).

(** The transfer or instantiate call handed to the signer. *)
Record ContractOptions : Type := MkContractOptions {
  opt_refTime : Z;
  opt_proofSize : Z;
  opt_storageDepositLimit : option string;
  opt_salt : option string;
  opt_value : option Z
}.

Inductive Call : Type :=
  | BalancesTransfer (to : option string) (value : option Z)
  | Instantiate (wasm : string) (method : string)
                (options : ContractOptions) (args : list JsValue).

(** Calls on the collaborators, in the order the connector makes them. *)
Inductive Effect : Type :=
  | KeychainGet (keychainId entryKey : string)
  | KeyringCreateFromUri (uri : option string)
  | SignAndSend (call : Call) (pair : KeyringPair)
  | SubmitAndWatchExtrinsic (signedTx : string)
  | CallbackThrew (e : JsThrown)
  | AddCurrentTransaction.

(** How an [async] method ends: it returns, it throws (the promise it returned
    is rejected), or the promise it awaits is never settled. *)
Inductive Completion (A : Type) : Type :=
  | Returns (a : A)
  | Throws (e : JsThrown)
  | Hangs.
Arguments Returns {A} a.
Arguments Throws {A} e.
Arguments Hangs {A}.

Definition M (A : Type) : Type := list Effect * Completion A.

Definition ret {A} (a : A) : M A := ([], Returns a).
Definition throw {A} (e : JsThrown) : M A := ([], Throws e).
Definition emit (e : Effect) : M unit := ([e], Returns tt).

Definition bind {A B} (m : M A) (k : A -> M B) : M B :=
  match m with
  | (t, Returns a) => let '(t', c) := k a in (t ++ t', c)
  | (t, Throws e) => (t, Throws e)
  | (t, Hangs) => (t, Hangs)
  end.

(** [try { m } catch (e) { throw h e }] *)
Definition try_catch {A} (m : M A) (h : JsThrown -> JsThrown) : M A :=
  match m with
  | (t, Throws e) => (t, Throws (h e))
  | other => other
  end.

#[global] Instance M_ret : MRet M := @ret.
#[global] Instance M_bind : MBind M := fun A B k m => bind m k.

Definition trace {A} (m : M A) : list Effect := fst m.
Definition completion {A} (m : M A) : Completion A := snd m.

(** A library call that either yields a value or throws. *)
Definition lift {A} (r : A + JsThrown) : M A :=
  match r with
  | inl a => ret a
  | inr e => throw e
  end.

(** ** Promises settled from a subscription callback *)

Inductive PromiseState (T : Type) : Type :=
  | Pending
  | Fulfilled (v : T)
  | Rejected (reason : JsThrown).
Arguments Pending {T}.
Arguments Fulfilled {T} v.
Arguments Rejected {T} reason.

Inductive Settle (T : Type) : Type :=
  | Resolve (v : T)
  | Reject (reason : JsThrown).
Arguments Resolve {T} v.
Arguments Reject {T} reason.

(** [resolve] and [reject] only act on a pending promise. *)
Definition settle {T} (p : PromiseState T) (s : Settle T) : PromiseState T :=
  match p with
  | Pending =>
      match s with
      | Resolve v => Fulfilled v
      | Reject r => Rejected r
      end
  | _ => p
  end.

(** One run of a callback: the call to [resolve]/[reject] it made, if any,
    and the exception it ended with, if any. *)
Record CallbackRun (T : Type) : Type := MkRun {
  settled : option (Settle T);
  threw : option JsThrown
}.
Arguments MkRun {T} settled threw.
Arguments settled {T} c.
Arguments threw {T} c.

Definition quiet {T} : CallbackRun T := MkRun None None.

Definition apply_run {T} (p : PromiseState T) (r : CallbackRun T) : PromiseState T :=
  match settled r with
  | Some s => settle p s
  | None => p
  end.

(** The subscription: the library calls [cb] on each notification in arrival
    order.  [stop_on_throw] says whether the library drops the subscription
    when the callback throws.  The result is the final state of the promise
    and the exceptions of the callback runs; these are listed together, also
    those raised after the awaiting method has gone on. *)
Fixpoint deliver {N T} (stop_on_throw : bool) (cb : N -> CallbackRun T)
    (ns : list N) (p : PromiseState T) : PromiseState T * list Effect :=
  match ns with
  | [] => (p, [])
  | n :: ns' =>
      let r := cb n in
      let p' := apply_run p r in
      match threw r with
      | Some e =>
          if stop_on_throw then (p', [CallbackThrew e])
          else let '(q, t) := deliver stop_on_throw cb ns' p' in
               (q, CallbackThrew e :: t)
      | None => deliver stop_on_throw cb ns' p'
      end
  end.

(** [await] of a promise in its final state. *)
Definition await {T} (r : PromiseState T * list Effect) : M T :=
  match r with
  | (Fulfilled v, t) => (t, Returns v)
  | (Rejected e, t) => (t, Throws e)
  | (Pending, t) => (t, Hangs)
  end.

(** ** What the node reports *)

(** The status of a submitted extrinsic (the library's [ExtrinsicStatus]). *)
Inductive ExtrinsicStatus : Type :=
  | Future
  | Ready
  | Broadcast
  | InBlock (block : Hash)
  | Retracted (block : Hash)
  | FinalityTimeout (block : Hash)
  | Finalized (block : Hash)
  | Usurped (by_tx : Hash)
  | Dropped
  | Invalid.

Definition isInBlock (s : ExtrinsicStatus) : bool :=
  match s with InBlock _ => true | _ => false end.

Definition isFinalized (s : ExtrinsicStatus) : bool :=
  match s with Finalized _ => true | _ => false end.

(** The [type] property: the name of the variant. *)
Definition status_type (s : ExtrinsicStatus) : string :=
  match s with
  | Future => "Future"
  | Ready => "Ready"
  | Broadcast => "Broadcast"
  | InBlock _ => "InBlock"
  | Retracted _ => "Retracted"
  | FinalityTimeout _ => "FinalityTimeout"
  | Finalized _ => "Finalized"
  | Usurped _ => "Usurped"
  | Dropped => "Dropped"
  | Invalid => "Invalid"
  end.

Record EventRecord : Type := MkEvent {
  section : string;
  method : string
}.

Record ModuleError : Type := MkModuleError {
  me_index : N;
  me_error : N
}.

Inductive DispatchError : Type :=
  | ModuleDispatchError (m : ModuleError)
  | OtherDispatchError (text : string).

Record MetaError : Type := MkMetaError {
  docs : list string;
  name : string;
  meta_section : string
}.

(** The argument of a [signAndSend] callback. *)
Record SubmittableResult : Type := MkResult {
  events : option (list EventRecord);
  status : ExtrinsicStatus;
  txHash : Hash;
  contract : option string;
  dispatchError : option DispatchError
}.

Record Extrinsic : Type := MkExtrinsic {
  signature_toHex : string
}.

Record AbiConstructor : Type := MkConstructor {
  ctor_method : string
}.

(** ** The chain-client library, as far as the connector depends on it *)

Class ChainClient : Type := {
  (** [keyring.createFromUri(mnemonic)] *)
  createFromUri : option string -> KeyringPair + JsThrown;
  (** [api.tx.balances.transfer(to, value)] *)
  balances_transfer : option string -> option Z -> Call + JsThrown;
  (** [api.tx(serialized)] *)
  api_tx : string -> Extrinsic + JsThrown;
  (** the [hash] property of a status value *)
  status_hash : ExtrinsicStatus -> Hash;
  (** reading [asInBlock] on a status that is not [InBlock]: a value, or the
      accessor throws *)
  asInBlock_other : ExtrinsicStatus -> Hash + JsThrown;
  (** whether a subscription ends when its callback throws *)
  stop_on_throw : bool;
  (** [`${events}`] *)
  events_toString : list EventRecord -> string;
  (** [new Abi(metadata, ...)]: the constructors it declares *)
  parseAbi : string -> list AbiConstructor + JsThrown;
  (** whether [contractCode.tx[method](...)] yields a truthy value *)
  tx_truthy : Call -> bool;
  (** [registry.findMetaError] and [dispatchError.toString()] *)
  findMetaError : ModuleError -> MetaError;
  (** what a keychain plugin throws for an entry it does not hold *)
  keychain_entry_missing : string -> JsThrown
}.

Definition asInBlock `{ChainClient} (s : ExtrinsicStatus) : Hash + JsThrown :=
  match s with
  | InBlock h => inl h
  | _ => asInBlock_other s
  end.

(** [isHex(value)] of @polkadot/util, with its default arguments: ["0x"] or
    ["0x"] followed by hexadecimal digits, of even length. *)
Definition is_hex_digit (c : ascii) : bool :=
  let n := nat_of_ascii c in
  (((48 <=? n) && (n <=? 57)) || ((97 <=? n) && (n <=? 102))
   || ((65 <=? n) && (n <=? 70)))%nat.

Fixpoint all_hex (s : string) : bool :=
  match s with
  | EmptyString => true
  | String c s' => is_hex_digit c && all_hex s'
  end.

Definition isHex (s : string) : bool :=
  match s with
  | String "0"%char (String "x"%char rest) => all_hex rest && Nat.even (String.length s)
  | _ => false
  end.

(** ** Requests, responses and the plugin *)

Inductive Web3SigningCredential : Type :=
  | MnemonicString (mnemonic : string)
  | CactusKeychainRef (keychainEntryKey keychainId : string)
  | NoneCredential
  | Unrecognized (type : string).

Record TransactionConfig : Type := MkConfig {
  to : option string;
  value : option Z;
  transferSubmittable : option string
}.

Record RunTransactionRequest : Type := MkRunRequest {
  web3SigningCredential : Web3SigningCredential;
  transactionConfig : TransactionConfig
}.

Record RunTransactionResponse : Type := MkRunResponse {
  success : bool;
  txHash_out : option string;
  blockHash_out : option string
}.

(** The value the bridging promise is resolved with. *)
Record TxResult : Type := MkTxResult {
  tr_success : bool;
  tr_transactionHash : string;
  tr_blockhash : string
}.

(** The connected [api]: the head block, the account nonces, and what its
    [createType] throws for an era period that it cannot encode. *)
Record ChainState : Type := MkChain {
  head_number : N;
  head_hash : Hash;
  accountNonce : option string -> N;
  era_refusal : Z -> JsThrown
}.

(** [api] is [None] while the connector is not connected; the plugin registry
    maps a keychain id to the entries of that keychain. *)
Record Plugin : Type := MkPlugin {
  api : option ChainState;
  pluginRegistry : gmap string (gmap string string)
}.

Record GasLimit : Type := MkGas {
  refTime : Z;
  proofSize : Z
}.

Record DeployContractInkRequest : Type := MkDeployRequest {
  dc_wasm : string;
  dc_metadata : string;
  dc_gasLimit : GasLimit;
  dc_storageDepositLimit : option string;
  dc_salt : option string;
  dc_balance : option Z;
  dc_params : option (list JsValue);
  dc_web3SigningCredential : Web3SigningCredential
}.

Record DeployContractInkResponse : Type := MkDeployResponse {
  dr_success : bool;
  dr_address : option string
}.

(** [accountAddress] is read through its [address] property. *)
Record TransactionInfoRequest : Type := MkInfoRequest {
  ti_accountAddress : option string;
  ti_transactionExpiration : option Z
}.

(** A mortal era: its period in blocks and the phase of its first block
    within the period. *)
Record ExtrinsicEra : Type := MkEra {
  era_period : Z;
  era_phase : Z
}.

Record SignerOptions : Type := MkSignerOptions {
  so_nonce : N;
  so_blockHash : Hash;
  so_era : ExtrinsicEra
}.

Record TransactionInfoResponse : Type := MkInfoResponse {
  response_data : SignerOptions;
  succeeded : bool;
  message : string
}.

(** [api.createType("ExtrinsicEra", { current, period })] of the chain-client
    library.  The period of the era is [2 ^ ceil(log2 period)], kept between
    4 and 65536; its phase is [current] modulo that period (the library
    divides and multiplies the phase by the quantize factor in floating
    point, which gives the phase back).  A negative period has no logarithm
    and the library refuses it. *)
Definition createType_ExtrinsicEra (chain : ChainState) (current : N)
    (period : Z) : ExtrinsicEra + JsThrown :=
  if (period <? 0)%Z then inr (era_refusal chain period)
  else
    let calPeriod := Z.min (Z.max (2 ^ Z.log2_up period) 4) 65536 in
    let phase := (Z.of_N current mod calPeriod)%Z in
    inl (MkEra calPeriod phase).

Definition className : string := "PluginLedgerConnectorPolkadot".

Definition not_connected : JsThrown :=
  ThrownError
    "The operation has failed because the API is not connected to Substrate Node".

(** [Checks.truthy(keychainPlugin, subject)] of cactus-common on a falsy
    value. *)
Definition dquote : string := String (ascii_of_nat 34) EmptyString.

Definition falsy_check (subject : string) : JsThrown :=
  ThrownError (dquote +:+ subject +:+ dquote +:+ " is falsy, need a truthy value.").

Section Connector.
Context `{ChainClient}.

(** *** transactMnemonicString *)

Definition is_success_event (e : EventRecord) : bool :=
  String.eqb (section e) "system" && String.eqb (method e) "ExtrinsicSuccess".

(** The callback given to [signAndSend] on the keypair path. *)
Definition mnemonic_callback (r : SubmittableResult) : CallbackRun TxResult :=
  let events := default [] (events r) in
  match status r with
  | InBlock block =>
      match find is_success_event events with
      | Some _ =>
          MkRun (Some (Resolve (MkTxResult true (toHex (txHash r)) (toHex block))))
                None
      | None =>
          MkRun (Some (Reject (ThrownString "transaction not successful")))
                (Some (ThrownError
                   ("Transaction Failed: The expected system.ExtrinsicSuccess event was not detected."
                    +:+ "events emitted are " +:+ events_toString events)))
      end
  | _ => quiet
  end.

Definition credential_mnemonic (c : Web3SigningCredential) : option string :=
  match c with
  | MnemonicString m => Some m
  | _ => None
  end.

Definition transactMnemonicString (P : Plugin) (req : RunTransactionRequest)
    (feed : list SubmittableResult) : M RunTransactionResponse :=
  let fnTag := className +:+ "#transactMnemonicString()" in
  match api P with
  | None => throw not_connected
  | Some _ =>
      let mnemonic := credential_mnemonic (web3SigningCredential req) in
      let cfg := transactionConfig req in
      txResult ← try_catch
        (emit (KeyringCreateFromUri mnemonic);;
         accountPair ← lift (createFromUri mnemonic);
         call ← lift (balances_transfer (to cfg) (value cfg));
         emit (SignAndSend call accountPair);;
         await (deliver stop_on_throw mnemonic_callback feed Pending))
        (fun e => ThrownError
           (fnTag +:+ " The transaction failed. " +:+ "InnerException: " +:+ render e));
      mret (MkRunResponse (tr_success txResult)
              (Some (tr_transactionHash txResult))
              (Some (tr_blockhash txResult)))
  end.

(** *** transactCactusKeychainRef *)

(** [transact] only calls this path with a keychain reference; the fields
    of another credential are not modelled. *)
Definition credential_keychain (c : Web3SigningCredential) : string * string :=
  match c with
  | CactusKeychainRef entryKey id => (entryKey, id)
  | _ => (EmptyString, EmptyString)
  end.

(** [keychainPlugin.get(entryKey)] *)
Definition keychain_get (keychainId entryKey : string)
    (keychain : gmap string string) : M string :=
  emit (KeychainGet keychainId entryKey);;
  match keychain !! entryKey with
  | Some secret => mret secret
  | None => throw (keychain_entry_missing entryKey)
  end.

(** A keychain id that is not registered ends the method before any lookup;
    the error is the one of [Checks.truthy], where the registry hands back no
    plugin (a registry that throws by itself ends the method at the same
    point with its own error). *)
Definition transactCactusKeychainRef (P : Plugin) (req : RunTransactionRequest)
    (feed : list SubmittableResult) : M RunTransactionResponse :=
  let fnTag := className +:+ "#transactCactusKeychainRef()" in
  let '(keychainEntryKey, keychainId) :=
    credential_keychain (web3SigningCredential req) in
  match pluginRegistry P !! keychainId with
  | None =>
      throw (falsy_check (fnTag +:+ " keychain for ID:" +:+ dquote +:+ keychainId +:+ dquote))
  | Some keychainPlugin =>
      mnemonic ← keychain_get keychainId keychainEntryKey keychainPlugin;
      transactMnemonicString P
        (MkRunRequest (MnemonicString mnemonic) (transactionConfig req)) feed
  end.

(** *** transactSigned *)

(** The callback given to [submitAndWatchExtrinsic].  Its parameter pattern
    [{ isInBlock, hash, asInBlock, type }] reads the four properties before
    the body runs, so an [asInBlock] accessor that throws ends the callback
    there. *)
Definition signed_callback (s : ExtrinsicStatus) : CallbackRun TxResult :=
  match asInBlock s with
  | inr e => MkRun None (Some e)
  | inl block =>
      if isInBlock s then
        MkRun (Some (Resolve (MkTxResult true (toHex (status_hash s)) (toHex block))))
              None
      else
        MkRun (Some (Reject (ThrownString "transaction not successful")))
              (Some (ThrownError
                 ("transaction not submitted with status: " +:+ status_type s)))
  end.

Definition transactSigned (P : Plugin) (req : RunTransactionRequest)
    (feed : list ExtrinsicStatus) : M RunTransactionResponse :=
  let fnTag := className +:+ "#transactSigned()" in
  let submittable := transferSubmittable (transactionConfig req) in
  if negb (truthy_string submittable) then
    throw (falsy_check (fnTag +:+ ":req.transactionConfig.transferSubmittable"))
  else
    let signedTx := default EmptyString submittable in
    match api P with
    | None => throw not_connected
    | Some _ =>
        deserializedTransaction ← lift (api_tx signedTx);
        let signature := signature_toHex deserializedTransaction in
        if negb (truthy_string (Some signature)) then
          throw (ThrownError (fnTag +:+ " Transaction is not signed. "))
        else if negb (isHex signature) then
          throw (ThrownError (fnTag +:+ " Transaction signature is not valid. "))
        else
          txResult ← try_catch
            (emit (SubmitAndWatchExtrinsic signedTx);;
             txResult ← await (deliver stop_on_throw signed_callback feed Pending);
             emit AddCurrentTransaction;;
             mret txResult)
            (fun e => ThrownError
               (fnTag +:+ " The transaction submission failed. "
                +:+ "InnerException: " +:+ render e));
          (* success = txResult.success; ...; success = true *)
          let success := tr_success txResult in
          let success := true in
          mret (MkRunResponse success
                  (Some (tr_transactionHash txResult))
                  (Some (tr_blockhash txResult)))
    end.

(** *** transact *)

Definition transact (P : Plugin) (req : RunTransactionRequest)
    (feed : list SubmittableResult) (raw_feed : list ExtrinsicStatus)
    : M RunTransactionResponse :=
  let fnTag := className +:+ "#transact()" in
  match web3SigningCredential req with
  | CactusKeychainRef _ _ => transactCactusKeychainRef P req feed
  | MnemonicString _ => transactMnemonicString P req feed
  | NoneCredential =>
      if truthy_string (transferSubmittable (transactionConfig req)) then
        transactSigned P req raw_feed
      else
        throw (ThrownError
          (fnTag +:+ " Expected pre-signed raw transaction "
           +:+ " since signing credential is specified as"
           +:+ "Web3SigningCredentialType.NONE"))
  | Unrecognized t =>
      throw (ThrownError
        (fnTag +:+ " Unrecognized Web3SigningCredentialType: "
         +:+ t +:+ " Supported ones are: "
         +:+ "CACTUS_KEYCHAIN_REF;MNEMONIC_STRING;NONE"))
  end.

(** *** deployContract *)

Definition deploy_fnTag : string := className +:+ "#deployContract()".

Fixpoint join (sep : string) (l : list string) : string :=
  match l with
  | [] => EmptyString
  | [x] => x
  | x :: l' => x +:+ sep +:+ join sep l'
  end.

(** The callback given to [signAndSend] by [deployContract]. *)
Definition deploy_callback (r : SubmittableResult)
    : CallbackRun (bool * option string) :=
  if isInBlock (status r) || isFinalized (status r) then
    match dispatchError r with
    | Some (ModuleDispatchError m) =>
        let decoded := findMetaError m in
        MkRun (Some (Reject (ThrownString "deployment not successful")))
              (Some (ThrownError
                 (meta_section decoded +:+ "." +:+ name decoded +:+ ": "
                  +:+ join " " (docs decoded))))
    | Some (OtherDispatchError text) =>
        MkRun (Some (Reject (ThrownString "deployment not successful")))
              (Some (ThrownError text))
    | None =>
        match contract r with
        | Some address => MkRun (Some (Resolve (true, Some address))) None
        | None =>
            MkRun None
              (Some (ThrownTypeError
                 "Cannot read properties of undefined (reading 'address')"))
        end
    end
  else quiet.

(** The arguments spread behind the options of the constructor call. *)
Definition constructor_args (params : option (list JsValue)) : list JsValue :=
  match params with
  | Some (p :: ps) => p :: ps
  | _ => [JsUndefined]
  end.

(** The signing secret of a deployment, or the error of the credential.  A
    keychain id that is not registered ends the method before any lookup;
    the error is the one of [Checks.truthy], where the registry hands back no
    plugin (a registry that throws by itself ends the method at the same
    point with its own error). *)
Definition deploy_mnemonic (P : Plugin) (c : Web3SigningCredential)
    : M (option string) :=
  match c with
  | NoneCredential =>
      throw (ThrownError
        (deploy_fnTag +:+ " Cannot deploy contract with pre-signed TX"))
  | MnemonicString mnemonic => mret (Some mnemonic)
  | CactusKeychainRef keychainEntryKey keychainId =>
      match pluginRegistry P !! keychainId with
      | None =>
          throw (falsy_check (deploy_fnTag +:+ " keychain for ID:"
                              +:+ dquote +:+ keychainId +:+ dquote))
      | Some keychainPlugin =>
          mnemonic ← keychain_get keychainId keychainEntryKey keychainPlugin;
          mret (Some mnemonic)
      end
  | Unrecognized _ =>
      throw (ThrownError
        (deploy_fnTag +:+ " Unrecognized Web3SigningCredentialType: "
         +:+ "Supported ones are: "
         +:+ "CACTUS_KEYCHAIN_REF;MNEMONIC_STRING;NONE"))
  end.

Definition deployContract (P : Plugin) (req : DeployContractInkRequest)
    (feed : list SubmittableResult) : M DeployContractInkResponse :=
  match api P with
  | None => throw not_connected
  | Some _ =>
      mnemonic ← deploy_mnemonic P (dc_web3SigningCredential req);
      contractAbi ← lift (parseAbi (dc_metadata req));
      let options :=
        MkContractOptions (refTime (dc_gasLimit req)) (proofSize (dc_gasLimit req))
          (dc_storageDepositLimit req) (dc_salt req) (dc_balance req) in
      txResult ← try_catch
        (emit (KeyringCreateFromUri mnemonic);;
         accountPair ← lift (createFromUri mnemonic);
         match contractAbi with
         | [] =>
             throw (ThrownTypeError
               "Cannot read properties of undefined (reading 'method')")
         | ctor :: _ =>
             let tx :=
               Instantiate (dc_wasm req) (ctor_method ctor) options
                 (constructor_args (dc_params req)) in
             if tx_truthy tx then
               emit (SignAndSend tx accountPair);;
               await (deliver stop_on_throw deploy_callback feed Pending)
             else mret (false, None)
         end)
        (fun e => ThrownError
           (deploy_fnTag +:+ " The contract upload and deployment failed. "
            +:+ "InnerException: " +:+ render e));
      let '(success, address) := txResult in
      (if negb (truthy_string address) then emit AddCurrentTransaction
       else mret tt);;
      mret (MkDeployResponse success address)
  end.

(** *** obtainTransactionInformation *)

(** [(req.transactionExpiration as number) || 50] *)
Definition transactionExpiration_or_default (e : option Z) : Z :=
  match e with
  | Some 0%Z | None => 50%Z
  | Some n => n
  end.

Definition obtainTransactionInformation (P : Plugin)
    (req : TransactionInfoRequest) : M TransactionInfoResponse :=
  let fnTag := className +:+ "#obtainTxInformation()" in
  try_catch
    (match api P with
     | Some chain =>
         let transactionExpiration :=
           transactionExpiration_or_default (ti_transactionExpiration req) in
         let nonce := accountNonce chain (ti_accountAddress req) in
         let blockHash := head_hash chain in
         era ← lift (createType_ExtrinsicEra chain (head_number chain)
                       transactionExpiration);
         mret (MkInfoResponse (MkSignerOptions nonce blockHash era)
                 true "obtainTransactionInformation")
     | None =>
         throw (ThrownError
           "The operation has failed because the api is not connected to Substrate Node")
     end)
    (fun e => ThrownError
       (fnTag +:+ " Obtaining info for this transaction has failed. "
        +:+ "InnerException: " +:+ render e)).

End Connector.

(** ** Building, signing, storage access and the REST handler *)

(** What these operations read from the chain-client library in addition. *)
Class SigningLibrary : Type := {
  (** [toHex()] of a call that has been built *)
  call_toHex : Call -> string;
  (** [extrinsic.signAsync(pair, options)] *)
  signAsync : Extrinsic -> KeyringPair -> SignerOptions -> Extrinsic + JsThrown;
  (** [toHex()] of an extrinsic *)
  extrinsic_toHex : Extrinsic -> string
}.

Record RawTransactionRequest : Type := MkRawRequest {
  raw_to : option string;
  raw_value : option Z
}.

(** [responseContainer] of [rawTransaction]; its [error] is [null]. *)
Record RawTransactionResponse : Type := MkRawResponse {
  raw_rawTransaction : string;
  raw_succeeded : bool;
  raw_message : string
}.

Record SignRawTransactionRequest : Type := MkSignRequest {
  sign_rawTransaction : string;
  sign_mnemonic : option string;
  sign_signingOptions : SignerOptions
}.

Record SignRawTransactionResponse : Type := MkSignResponse {
  sign_success : bool;
  sign_signedTransaction : string
}.

(** The submittable of a storage request: how its signature renders and how
    its [send()] ends. *)
Record StorageRequest : Type := MkStorageRequest {
  st_signature_toHex : string;
  st_send : Completion Hash
}.

Record StorageResponse : Type := MkStorageResponse {
  st_success : bool;
  st_hash : option Hash
}.

(** What the REST handler of [run-transaction] answers. *)
Inductive HttpBody : Type :=
  | JsonResponse (r : RunTransactionResponse)
  | JsonError (message : string) (error : option string).

Record HttpResponse : Type := MkHttp {
  http_status : nat;
  http_body : HttpBody
}.

Section Operations.
Context `{ChainClient} `{SigningLibrary}.

(** *** rawTransaction *)

Definition rawTransaction (P : Plugin) (req : RawTransactionRequest)
    : M RawTransactionResponse :=
  let fnTag := className +:+ "#rawTx()" in
  match api P with
  | None => throw not_connected
  | Some _ =>
      try_catch
        (let accountAddress := raw_to req in
         let transferValue := raw_value req in
         rawTransaction ← lift (balances_transfer accountAddress transferValue);
         mret (MkRawResponse (call_toHex rawTransaction) true
                 "obtainRawTransaction"))
        (fun e => ThrownError
           (fnTag +:+ " Obtaining raw transaction has failed. "
            +:+ "InnerException: " +:+ render e))
  end.

(** *** signTransaction *)

Definition signTransaction (P : Plugin) (req : SignRawTransactionRequest)
    : M SignRawTransactionResponse :=
  let fnTag := className +:+ "#signTx()" in
  match api P with
  | None => throw not_connected
  | Some _ =>
      try_catch
        (emit (KeyringCreateFromUri (sign_mnemonic req));;
         accountPair ← lift (createFromUri (sign_mnemonic req));
         deserializedRawTransaction ← lift (api_tx (sign_rawTransaction req));
         signedTransaction ← lift (signAsync deserializedRawTransaction
                                     accountPair (sign_signingOptions req));
         let serializedSignedTransaction := extrinsic_toHex signedTransaction in
         mret (MkSignResponse true serializedSignedTransaction))
        (fun e => ThrownError
           (fnTag +:+ " signing raw transaction has failed. "
            +:+ "InnerException: " +:+ render e))
  end.

(** *** readStorage and writeStorage *)

(** [send()] is a method of the request's own submittable; how it ends is
    part of the request and it is not listed in the trace. *)
Definition readStorage (P : Plugin) (req : StorageRequest) : M StorageResponse :=
  let fnTag := className +:+ "#readStorage()" in
  let signature := st_signature_toHex req in
  if negb (truthy_string (Some signature)) then
    throw (ThrownError (fnTag +:+ " Transaction is not signed. "))
  else if negb (isHex signature) then
    throw (ThrownError (fnTag +:+ " Transaction signature is not valid. "))
  else
    '(success, hash) ← try_catch
      (match api P with
       | Some _ =>
           hash ← (([], st_send req) : M Hash);
           emit AddCurrentTransaction;;
           mret (true, Some hash)
       | None => mret (false, None)
       end)
      (fun e => ThrownError
         (fnTag +:+ " The read from smart contract storage operation failed. "
          +:+ "InnerException: " +:+ render e));
    mret (MkStorageResponse success hash).

Definition writeStorage (P : Plugin) (req : StorageRequest) : M StorageResponse :=
  let fnTag := className +:+ "#writeStorage()" in
  let signature := st_signature_toHex req in
  if negb (truthy_string (Some signature)) then
    throw (ThrownError (fnTag +:+ " Transaction is not signed. "))
  else if negb (isHex signature) then
    throw (ThrownError (fnTag +:+ " Transaction signature is not valid. "))
  else
    '(success, hash) ← try_catch
      (match api P with
       | Some _ =>
           hash ← (([], st_send req) : M Hash);
           emit AddCurrentTransaction;;
           mret (true, Some hash)
       | None => mret (false, None)
       end)
      (fun e => ThrownError
         (fnTag +:+ " The write in smart contract storage operation failed. "
          +:+ "InnerException: " +:+ render e));
    mret (MkStorageResponse success hash).

(** *** RunTransactionEndpoint.handleRequest *)

(** The [message] property of a thrown value. *)
Definition js_message (e : JsThrown) : option string :=
  match e with
  | ThrownString _ => None
  | ThrownError m => Some m
  | ThrownTypeError m => Some m
  end.

(** [ex?.stack || ex?.message]; [stack] is what the engine recorded. *)
Definition stack_or_message (stack : JsThrown -> option string) (ex : JsThrown)
    : option string :=
  if truthy_string (stack ex) then stack ex else js_message ex.

(** The handler answers through [res]: [res.json(body)] answers with status
    200, [res.status(500).json(body)] with status 500; while [transact] is
    pending nothing is answered. *)
Definition handleRequest (stack : JsThrown -> option string)
    (P : Plugin) (reqBody : RunTransactionRequest)
    (feed : list SubmittableResult) (raw_feed : list ExtrinsicStatus)
    : list Effect * option HttpResponse :=
  match transact P reqBody feed raw_feed with
  | (t, Returns resBody) => (t, Some (MkHttp 200 (JsonResponse resBody)))
  | (t, Throws ex) =>
      (t, Some (MkHttp 500
                  (JsonError "Internal Server Error" (stack_or_message stack ex))))
  | (t, Hangs) => (t, None)
  end.

End Operations.

(** ** Construction, connection and web services *)

(** A log level is a name or a number. *)
Inductive LogLevelDesc : Type :=
  | LevelName (name : string)
  | LevelNumber (n : nat).

Definition truthy_level (l : LogLevelDesc) : bool :=
  match l with
  | LevelName (String _ _) => true
  | LevelNumber (S _) => true
  | _ => false
  end.

(** The metrics exporter of a plugin: the one of the options, or one that the
    constructor creates with its polling interval. *)
Inductive Exporter : Type :=
  | ProvidedExporter (id : nat)
  | NewExporter (pollingIntervalInMin : nat).

Record IPluginLedgerConnectorPolkadotOptions : Type := MkOptions {
  o_logLevel : option LogLevelDesc;
  o_pluginRegistry : option (gmap string (gmap string string));
  o_prometheusExporter : option Exporter;
  o_wsProviderUrl : string;
  o_instanceId : string;
  o_autoConnect : option bool
}.

(** The endpoints that the plugin installs, by class. *)
Inductive Endpoint : Type :=
  | GetPrometheusExporterMetricsEndpointV1
  | GetTransactionInfoEndpoint
  | RunTransactionEndpoint
  | GetRawTransactionEndpoint
  | SignRawTransactionEndpoint
  | DeployContractInkEndpoint.

(** The fields of a plugin object; [inst_plugin] holds [api] and
    [pluginRegistry]. *)
Record PluginInstance : Type := MkInstance {
  inst_plugin : Plugin;
  inst_instanceId : string;
  inst_level : LogLevelDesc;
  inst_exporter : Exporter;
  inst_autoConnect : option nat;
  inst_wsProviderUrl : string;
  inst_endpoints : option (list Endpoint)
}.

Section Lifecycle.

(** [new WsProvider(url, autoConnect)]: the exception it throws, if any. *)
Variable new_WsProvider : string -> option nat -> option JsThrown.

(** [LoggerProvider.getOrCreate({ level, label })]: the exception it throws,
    if any (a level that the logger does not know). *)
Variable LoggerProvider_getOrCreate : LogLevelDesc -> string -> option JsThrown.

(** [prometheusExporter.startMetricsCollection()]: the exception it throws,
    if any. *)
Variable startMetricsCollection : Exporter -> option JsThrown.

(** [Checks.truthy(value, subject)] *)
Definition check_truthy (value : bool) (subject : string) : unit + JsThrown :=
  if value then inl tt else inr (falsy_check subject).

Definition setProvider (autoConnect : option nat) (wsProviderUrl : string)
    : unit + JsThrown :=
  match new_WsProvider wsProviderUrl autoConnect with
  | None => inl tt
  | Some e =>
      inr (ThrownError
             ("Could not create wsProvider. InnerException: + " +:+ render e))
  end.

(** The constructor: the new plugin object, or the exception. *)
Definition new_PluginLedgerConnectorPolkadot
    (opts : IPluginLedgerConnectorPolkadotOptions) : PluginInstance + JsThrown :=
  let fnTag := className +:+ "#constructor()" in
  match o_pluginRegistry opts with
  | None => inr (falsy_check (fnTag +:+ " options.pluginRegistry"))
  | Some pluginRegistry =>
      match
        match o_logLevel opts with
        | Some logLevel =>
            check_truthy (truthy_level logLevel) (fnTag +:+ " options.logLevelDesc")
        | None => inl tt
        end
      with
      | inr e => inr e
      | inl _ =>
          match check_truthy (truthy_string (Some (o_wsProviderUrl opts)))
                  (fnTag +:+ " options.wsProviderUrl") with
          | inr e => inr e
          | inl _ =>
              match check_truthy (truthy_string (Some (o_instanceId opts)))
                      (fnTag +:+ " options.instanceId") with
              | inr e => inr e
              | inl _ =>
                  let prometheusExporter :=
                    default (NewExporter 1) (o_prometheusExporter opts) in
                  let level := default (LevelName "INFO") (o_logLevel opts) in
                  let label := className in
                  match LoggerProvider_getOrCreate level label with
                  | Some e => inr e
                  | None =>
                      let autoConnect :=
                        match o_autoConnect opts with
                        | Some true => Some 1
                        | _ => None
                        end in
                      match setProvider autoConnect (o_wsProviderUrl opts) with
                      | inr e => inr e
                      | inl _ =>
                          match startMetricsCollection prometheusExporter with
                          | Some e => inr e
                          | None =>
                              inl (MkInstance (MkPlugin None pluginRegistry)
                                     (o_instanceId opts) level prometheusExporter
                                     autoConnect (o_wsProviderUrl opts) None)
                          end
                      end
                  end
              end
          end
      end
  end.

End Lifecycle.

(** [createAPI]; [connect] is how [ApiPromise.create] ends. *)
Definition createAPI (this : PluginInstance) (connect : Completion ChainState)
    : Completion PluginInstance :=
  match connect with
  | Returns chain =>
      Returns (MkInstance
                 (MkPlugin (Some chain) (pluginRegistry (inst_plugin this)))
                 (inst_instanceId this) (inst_level this) (inst_exporter this)
                 (inst_autoConnect this) (inst_wsProviderUrl this)
                 (inst_endpoints this))
  | Throws _ => Throws (ThrownError "Could not create API")
  | Hangs => Hangs
  end.

Definition getInstanceId (this : PluginInstance) : string :=
  inst_instanceId this.

(** [getOrCreateWebServices]: the endpoints and the plugin object after the
    call. *)
Definition getOrCreateWebServices (this : PluginInstance)
    : list Endpoint * PluginInstance :=
  match inst_endpoints this with
  | Some endpoints => (endpoints, this)
  | None =>
      let endpoints :=
        [GetPrometheusExporterMetricsEndpointV1; GetTransactionInfoEndpoint;
         RunTransactionEndpoint; GetRawTransactionEndpoint;
         SignRawTransactionEndpoint; DeployContractInkEndpoint] in
      (endpoints,
       MkInstance (inst_plugin this) (inst_instanceId this) (inst_level this)
         (inst_exporter this) (inst_autoConnect this) (inst_wsProviderUrl this)
         (Some endpoints))
  end.

(** [n] calls of [getOrCreateWebServices] in a row: what each returned and
    the plugin object at the end. *)
Fixpoint repeated_web_services (n : nat) (this : PluginInstance)
    : list (list Endpoint) * PluginInstance :=
  match n with
  | 0 => ([], this)
  | S n' =>
      let '(endpoints, this') := getOrCreateWebServices this in
      let '(later, final) := repeated_web_services n' this' in
      (endpoints :: later, final)
  end.

(** The collaborator calls that hand something to the node. *)
Fixpoint node_submissions (t : list Effect) : nat :=
  match t with
  | [] => 0
  | SignAndSend _ _ :: t' => S (node_submissions t')
  | SubmitAndWatchExtrinsic _ :: t' => S (node_submissions t')
  | _ :: t' => node_submissions t'
  end.

(** The signers derived in a trace. *)
Fixpoint signer_derivations (t : list Effect) : nat :=
  match t with
  | [] => 0
  | KeyringCreateFromUri _ :: t' => S (signer_derivations t')
  | _ :: t' => signer_derivations t'
  end.

(** A notification on which the callback of [deployContract] acts. *)
Definition deploy_decisive (r : SubmittableResult) : bool :=
  isInBlock (status r) || isFinalized (status r).

(** The request [req] with the signing credential [c]. *)
Definition with_credential (req : DeployContractInkRequest)
    (c : Web3SigningCredential) : DeployContractInkRequest :=
  MkDeployRequest (dc_wasm req) (dc_metadata req) (dc_gasLimit req)
    (dc_storageDepositLimit req) (dc_salt req) (dc_balance req) (dc_params req) c.

(** What the caller of [deployContract] gets for a rejection. *)
Definition deploy_failure (e : JsThrown) : JsThrown :=
  ThrownError
    (className +:+ "#deployContract()"
     +:+ " The contract upload and deployment failed. "
     +:+ "InnerException: " +:+ render e).

(** ** Notions used in the statements *)

(** What the caller of [transactMnemonicString] gets for a rejection. *)
Definition mnemonic_failure (e : JsThrown) : JsThrown :=
  ThrownError
    (className +:+ "#transactMnemonicString()" +:+ " The transaction failed. "
     +:+ "InnerException: " +:+ render e).

(** What the caller of [transactSigned] gets for a rejection. *)
Definition signed_failure (e : JsThrown) : JsThrown :=
  ThrownError
    (className +:+ "#transactSigned()" +:+ " The transaction submission failed. "
     +:+ "InnerException: " +:+ render e).

Definition not_included (r : SubmittableResult) : Prop :=
  isInBlock (status r) = false.

(** A status whose [asInBlock] accessor throws when the callback of the
    pre-signed path reads its parameter. *)
Definition unreadable `{ChainClient} (s : ExtrinsicStatus) : Prop :=
  exists e, asInBlock s = inr e.

(** The calls handed to the signer in a trace, in order. *)
Fixpoint submitted_calls (t : list Effect) : list Call :=
  match t with
  | [] => []
  | SignAndSend call _ :: t' => call :: submitted_calls t'
  | _ :: t' => submitted_calls t'
  end.

(** How often the transaction counter was incremented in a trace. *)
Fixpoint counter_increments (t : list Effect) : nat :=
  match t with
  | [] => 0
  | AddCurrentTransaction :: t' => S (counter_increments t')
  | _ :: t' => counter_increments t'
  end.

Ltac unfold_monad :=
  unfold mbind, M_bind, mret, M_ret, bind, ret, throw, emit, lift, try_catch,
    await, completion, trace in *.

(** ** Sample collaborators and inputs *)

Module Fixture.

(** A chain client whose status accessors hand back a value on every
    variant, as the declared type of [ExtrinsicStatus] promises. *)
Definition typed_client : ChainClient := {|
  createFromUri := fun m =>
    match m with
    | Some uri => inl (MkPair uri)
    | None => inr (ThrownTypeError "uri is undefined")
    end;
  balances_transfer := fun t v => inl (BalancesTransfer t v);
  api_tx := fun s =>
    if String.eqb s "unsigned" then inl (MkExtrinsic EmptyString)
    else inl (MkExtrinsic s);
  status_hash := fun _ => [7%N];
  asInBlock_other := fun _ => inl [];
  stop_on_throw := false;
  events_toString := fun evs =>
    join "," (map (fun e => section e +:+ "." +:+ method e) evs);
  parseAbi := fun _ => inl [MkConstructor "new"; MkConstructor "default"];
  tx_truthy := fun _ => true;
  findMetaError := fun _ => MkMetaError ["Out of gas"] "OutOfGas" "contracts";
  keychain_entry_missing := fun k => ThrownError (k +:+ " secret not found")
|}.

(** The same client with accessors that throw on a status of another
    variant. *)
Definition checked_client : ChainClient := {|
  createFromUri := @createFromUri typed_client;
  balances_transfer := @balances_transfer typed_client;
  api_tx := @api_tx typed_client;
  status_hash := @status_hash typed_client;
  asInBlock_other := fun s =>
    inr (ThrownError
           ("Cannot convert '" +:+ status_type s +:+ "' via asInBlock"));
  stop_on_throw := false;
  events_toString := @events_toString typed_client;
  parseAbi := @parseAbi typed_client;
  tx_truthy := @tx_truthy typed_client;
  findMetaError := @findMetaError typed_client;
  keychain_entry_missing := @keychain_entry_missing typed_client
|}.

Definition chain : ChainState :=
  MkChain 100 [1%N; 2%N] (fun _ => 3%N)
    (fun _ => ThrownError "createType(ExtrinsicEra):: period cannot be encoded").

Definition plugin : Plugin :=
  MkPlugin (Some chain) {[ "kc1" := {[ "entry" := "//Alice" ]} ]}.

Definition offline : Plugin := MkPlugin None ∅.

Definition transfer : TransactionConfig :=
  MkConfig (Some "5Bob") (Some 30%Z) None.

Definition by_mnemonic : RunTransactionRequest :=
  MkRunRequest (MnemonicString "//Alice") transfer.

Definition by_keychain : RunTransactionRequest :=
  MkRunRequest (CactusKeychainRef "entry" "kc1") transfer.

Definition pre_signed (tx : string) : RunTransactionRequest :=
  MkRunRequest NoneCredential (MkConfig None None (Some tx)).

Definition note (evs : list EventRecord) (s : ExtrinsicStatus)
    : SubmittableResult :=
  MkResult (Some evs) s [9%N] None None.

Definition ok_events : list EventRecord :=
  [MkEvent "balances" "Transfer"; MkEvent "system" "ExtrinsicSuccess"].

Definition failed_events : list EventRecord :=
  [MkEvent "system" "ExtrinsicFailed"].

Definition deploy (c : Web3SigningCredential) (params : option (list JsValue))
    : DeployContractInkRequest :=
  MkDeployRequest "AGFzbQ==" "{}" (MkGas 6219235328 131072) None None None
    params c.

Definition instantiated (s : ExtrinsicStatus) (address : string)
    : SubmittableResult :=
  MkResult None s [9%N] (Some address) None.

End Fixture.

(** Sample library for building and signing: a call renders as a fixed
    text per kind, signing appends the signer to the signature. *)
Module Sample.

Definition library : SigningLibrary := {|
  call_toHex := fun c =>
    match c with
    | BalancesTransfer _ _ => "0x0403"
    | Instantiate _ _ _ _ => "0x0701"
    end;
  signAsync := fun ext pair _ =>
    match pair with
    | MkPair uri =>
        if String.eqb uri "//Nobody" then inr (ThrownError "bad signer")
        else inl (MkExtrinsic (signature_toHex ext +:+ "ab"))
    end;
  extrinsic_toHex := fun ext => signature_toHex ext
|}.

Definition options : SignerOptions := MkSignerOptions 3 [1%N; 2%N] (MkEra 64 36).

Definition signed_storage : StorageRequest :=
  MkStorageRequest "0xabcd" (Returns [5%N]).

Definition no_stack : JsThrown -> option string := fun _ => None.

Definition dispatch_failed (s : ExtrinsicStatus) : SubmittableResult :=
  MkResult None s [9%N] None (Some (OtherDispatchError "BadOrigin")).

(** A client that rehydrates every payload into a transaction that was never
    signed: its signature field is 64 zero bytes. *)
Definition unsigned_client : ChainClient := {|
  createFromUri := @createFromUri Fixture.checked_client;
  balances_transfer := @balances_transfer Fixture.checked_client;
  api_tx := fun _ => inl (MkExtrinsic (toHex (repeat 0%N 64)));
  status_hash := @status_hash Fixture.checked_client;
  asInBlock_other := @asInBlock_other Fixture.checked_client;
  stop_on_throw := false;
  events_toString := @events_toString Fixture.checked_client;
  parseAbi := @parseAbi Fixture.checked_client;
  tx_truthy := @tx_truthy Fixture.checked_client;
  findMetaError := @findMetaError Fixture.checked_client;
  keychain_entry_missing := @keychain_entry_missing Fixture.checked_client
|}.

Definition ws_provider (url : string) (autoConnect : option nat)
    : option JsThrown :=
  if String.prefix "ws://" url then None
  else Some (ThrownError "Endpoint should start with 'ws://'").

Definition logger (level : LogLevelDesc) (label : string) : option JsThrown :=
  match level with
  | LevelName name =>
      if bool_decide (name ∈ ["TRACE"; "DEBUG"; "INFO"; "WARN"; "ERROR"; "SILENT"])
      then None
      else Some (ThrownError ("log.setLevel() called with invalid level: " +:+ name))
  | LevelNumber n =>
      if (n <=? 5)%nat then None
      else Some (ThrownError "log.setLevel() called with invalid level")
  end.

Definition metrics (e : Exporter) : option JsThrown := None.

Definition opts : IPluginLedgerConnectorPolkadotOptions :=
  MkOptions (Some (LevelName "TRACE"))
    (Some {[ "kc1" := {[ "entry" := "//Alice" ]} ]}) None
    "ws://127.0.0.1:9944" "test-polkadot-connector" None.

Definition fresh : PluginInstance :=
  MkInstance (MkPlugin None {[ "kc1" := {[ "entry" := "//Alice" ]} ]})
    "test-polkadot-connector" (LevelName "TRACE") (NewExporter 1) None
    "ws://127.0.0.1:9944" None.

End Sample.

(** ** Running the model on sample inputs *)

Example mnemonic_transfer_included :
  @transactMnemonicString Fixture.typed_client Fixture.plugin Fixture.by_mnemonic
    [Fixture.note [] Ready; Fixture.note Fixture.ok_events (InBlock [171%N; 5%N])]
  = ([KeyringCreateFromUri (Some "//Alice");
      SignAndSend (BalancesTransfer (Some "5Bob") (Some 30%Z)) (MkPair "//Alice")],
     Returns (MkRunResponse true (Some "0x09") (Some "0xab05"))).
Proof. reflexivity. Qed.

Example signed_transfer_included :
  @transactSigned Fixture.checked_client Fixture.plugin (Fixture.pre_signed "0xabcd")
    [Ready; Broadcast; InBlock [1%N]]
  = ([SubmitAndWatchExtrinsic "0xabcd";
      CallbackThrew (ThrownError "Cannot convert 'Ready' via asInBlock");
      CallbackThrew (ThrownError "Cannot convert 'Broadcast' via asInBlock");
      AddCurrentTransaction],
     Returns (MkRunResponse true (Some "0x07") (Some "0x01"))).
Proof. reflexivity. Qed.

Example transfer_while_offline :
  @transactMnemonicString Fixture.typed_client Fixture.offline Fixture.by_mnemonic
    [Fixture.note Fixture.ok_events (InBlock [1%N])]
  = ([], Throws (ThrownError
       "The operation has failed because the API is not connected to Substrate Node")).
Proof. reflexivity. Qed.

Example deploy_included :
  @deployContract Fixture.typed_client Fixture.plugin
    (Fixture.deploy (MnemonicString "//Alice") (Some [JsBool false]))
    [Fixture.instantiated Ready "5Contract"; Fixture.instantiated (InBlock [1%N]) "5Contract"]
  = ([KeyringCreateFromUri (Some "//Alice");
      SignAndSend
        (Instantiate "AGFzbQ==" "new"
           (MkContractOptions 6219235328 131072 None None None) [JsBool false])
        (MkPair "//Alice")],
     Returns (MkDeployResponse true (Some "5Contract"))).
Proof. reflexivity. Qed.

(** ** The promise and the subscription *)

Lemma settle_not_pending {T} (p : PromiseState T) (s : Settle T) :
  p <> Pending -> settle p s = p.
Proof. destruct p; [congruence | reflexivity | reflexivity]. Qed.

Lemma apply_run_not_pending {T} (p : PromiseState T) (r : CallbackRun T) :
  p <> Pending -> apply_run p r = p.
Proof.
  intros Hp. unfold apply_run.
  destruct (settled r); [now apply settle_not_pending | reflexivity].
Qed.

(** A settled promise keeps its state whatever is delivered afterwards. *)
Lemma deliver_settled {N T} (b : bool) (cb : N -> CallbackRun T)
    (ns : list N) (p : PromiseState T) :
  p <> Pending -> (deliver b cb ns p).1 = p.
Proof.
  revert p. induction ns as [|n ns IH]; intros p Hp; simpl; [reflexivity|].
  rewrite (apply_run_not_pending p (cb n) Hp).
  destruct (threw (cb n)).
  - destruct b; [reflexivity|].
    specialize (IH p Hp). destruct (deliver false cb ns p); exact IH.
  - now apply IH.
Qed.

(** Notifications on which the callback neither settles nor throws leave
    the promise as it was. *)
Lemma deliver_quiet_prefix {N T} (b : bool) (cb : N -> CallbackRun T)
    (pre rest : list N) (p : PromiseState T) :
  Forall (fun n => cb n = quiet) pre ->
  deliver b cb (pre ++ rest) p = deliver b cb rest p.
Proof.
  induction 1 as [|n pre Hn _ IH]; simpl; [reflexivity|].
  rewrite Hn. exact IH.
Qed.

(** A notification on which the callback settles decides a pending promise. *)
Lemma deliver_decisive {N T} (b : bool) (cb : N -> CallbackRun T)
    (n : N) (rest : list N) (s : Settle T) :
  settled (cb n) = Some s ->
  (deliver b cb (n :: rest) Pending).1 = settle Pending s.
Proof.
  intros Hs. simpl. unfold apply_run. rewrite Hs.
  assert (Hnp : settle Pending s <> @Pending T) by (destruct s; discriminate).
  destruct (threw (cb n)).
  - destruct b; [reflexivity|].
    pose proof (deliver_settled false cb rest _ Hnp) as Hd.
    destruct (deliver false cb rest (settle Pending s)); exact Hd.
  - now apply deliver_settled.
Qed.


(** ** The keypair path *)

Section KeypairPath.
Context `{ChainClient}.

Lemma mnemonic_callback_not_included (r : SubmittableResult) :
  not_included r -> mnemonic_callback r = quiet.
Proof.
  unfold not_included, mnemonic_callback.
  destruct (status r); simpl; intros Hs; try reflexivity; discriminate.
Qed.

(** Once connected, with a signer and a transfer call, the method ends as the
    bridging promise ends. *)
Lemma transactMnemonicString_run (P : Plugin) (req : RunTransactionRequest)
    (feed : list SubmittableResult) chain pair call :
  api P = Some chain ->
  createFromUri (credential_mnemonic (web3SigningCredential req)) = inl pair ->
  balances_transfer (to (transactionConfig req)) (value (transactionConfig req))
    = inl call ->
  completion (transactMnemonicString P req feed) =
    match (deliver stop_on_throw mnemonic_callback feed Pending).1 with
    | Fulfilled r =>
        Returns (MkRunResponse (tr_success r) (Some (tr_transactionHash r))
                   (Some (tr_blockhash r)))
    | Rejected e => Throws (mnemonic_failure e)
    | Pending => Hangs
    end.
Proof.
  intros Hapi Hpair Hcall. unfold transactMnemonicString.
  rewrite Hapi. unfold_monad. rewrite Hpair, Hcall. simpl.
  destruct (deliver stop_on_throw mnemonic_callback feed Pending) as [[|r|e] t];
    reflexivity.
Qed.

(** The promise of the keypair path is decided by the first notification
    whose status is [InBlock]. *)
Lemma mnemonic_promise_first_included
    (pre post : list SubmittableResult) (r : SubmittableResult) block :
  Forall not_included pre ->
  status r = InBlock block ->
  (deliver stop_on_throw mnemonic_callback (pre ++ r :: post) Pending).1 =
    match find is_success_event (default [] (events r)) with
    | Some _ => Fulfilled (MkTxResult true (toHex (txHash r)) (toHex block))
    | None => Rejected (ThrownString "transaction not successful")
    end.
Proof.
  intros Hpre Hr.
  rewrite deliver_quiet_prefix
    by (eapply Forall_impl; [exact Hpre | apply mnemonic_callback_not_included]).
  destruct (find is_success_event (default [] (events r))) eqn:Hfind.
  - erewrite deliver_decisive
      by (unfold mnemonic_callback; rewrite Hr, Hfind; reflexivity).
    reflexivity.
  - erewrite deliver_decisive
      by (unfold mnemonic_callback; rewrite Hr, Hfind; reflexivity).
    reflexivity.
Qed.

(** Without any [InBlock] notification the promise stays pending. *)
Lemma mnemonic_promise_never_included (feed : list SubmittableResult) :
  Forall not_included feed ->
  (deliver stop_on_throw mnemonic_callback feed Pending).1 = Pending.
Proof.
  intros Hfeed. rewrite <- (app_nil_r feed).
  rewrite deliver_quiet_prefix; [reflexivity|].
  eapply Forall_impl; [exact Hfeed | apply mnemonic_callback_not_included].
Qed.

End KeypairPath.

(** ** The pre-signed path *)

Section SignedPath.
Context `{ChainClient}.

(** Once the payload has passed the checks, the method ends as the bridging
    promise ends. *)
Lemma transactSigned_run (P : Plugin) (req : RunTransactionRequest)
    (feed : list ExtrinsicStatus) chain signedTx ext :
  transferSubmittable (transactionConfig req) = Some signedTx ->
  truthy_string (Some signedTx) = true ->
  api P = Some chain ->
  api_tx signedTx = inl ext ->
  truthy_string (Some (signature_toHex ext)) = true ->
  isHex (signature_toHex ext) = true ->
  completion (transactSigned P req feed) =
    match (deliver stop_on_throw signed_callback feed Pending).1 with
    | Fulfilled r =>
        Returns (MkRunResponse true (Some (tr_transactionHash r))
                   (Some (tr_blockhash r)))
    | Rejected e => Throws (signed_failure e)
    | Pending => Hangs
    end.
Proof.
  intros Hsub Htruthy Hapi Htx Hsig Hhex. unfold transactSigned.
  rewrite Hsub, Htruthy, Hapi.
  change (default EmptyString (Some signedTx)) with signedTx.
  cbn [negb]. unfold_monad. rewrite Htx.
  cbn -[truthy_string isHex deliver signed_callback String.append].
  rewrite Hsig, Hhex. cbn -[deliver signed_callback String.append].
  destruct (deliver stop_on_throw signed_callback feed Pending) as [[|r|e] t];
    reflexivity.
Qed.



(** Notifications whose [asInBlock] accessor throws never settle the
    promise. *)
Lemma signed_promise_unread (b : bool) (feed : list ExtrinsicStatus)
    (p : PromiseState TxResult) :
  Forall unreadable feed ->
  (deliver b signed_callback feed p).1 = p.
Proof.
  induction 1 as [|s feed [e He] _ IH]; simpl; [reflexivity|].
  assert (Hcb : signed_callback s = MkRun None (Some e))
    by (unfold signed_callback; rewrite He; reflexivity).
  rewrite Hcb. unfold apply_run. simpl.
  destruct b; [reflexivity|].
  destruct (deliver false signed_callback feed p); exact IH.
Qed.



End SignedPath.

(** ** The event bridge of the keypair path *)

(** C1.  On the keypair path the first notification whose status is block
    inclusion decides the submission, whatever was delivered before it and
    whatever follows.  If its event list holds a [system.ExtrinsicSuccess]
    event the caller gets [success = true] with [txHash] the hash of the
    submission and [blockHash] the hash of the including block.  If the event
    is missing the caller gets a failure whose text is fixed: the rejection
    reason is the string ["transaction not successful"], and the event list is
    only part of an error thrown inside the callback after the rejection. *)
Theorem C1_first_inclusion_decides `{ChainClient}
    (P : Plugin) (req : RunTransactionRequest)
    (pre post : list SubmittableResult) (r : SubmittableResult)
    chain pair call block :
  api P = Some chain ->
  createFromUri (credential_mnemonic (web3SigningCredential req)) = inl pair ->
  balances_transfer (to (transactionConfig req)) (value (transactionConfig req))
    = inl call ->
  Forall not_included pre ->
  status r = InBlock block ->
  completion (transactMnemonicString P req (pre ++ r :: post)) =
    match find is_success_event (default [] (events r)) with
    | Some _ =>
        Returns (MkRunResponse true (Some (toHex (txHash r))) (Some (toHex block)))
    | None =>
        Throws (mnemonic_failure (ThrownString "transaction not successful"))
    end.
Proof.
  intros Hapi Hpair Hcall Hpre Hr.
  rewrite (transactMnemonicString_run P req _ chain pair call Hapi Hpair Hcall).
  rewrite (mnemonic_promise_first_included pre post r block Hpre Hr).
  destruct (find is_success_event (default [] (events r))); reflexivity.
Qed.

Lemma C1_first_inclusion_decides_witness :
  completion
    (@transactMnemonicString Fixture.typed_client Fixture.plugin Fixture.by_mnemonic
       ([Fixture.note [] Ready]
        ++ Fixture.note Fixture.failed_events (InBlock [1%N])
        :: [Fixture.note Fixture.ok_events (Finalized [1%N])]))
  = Throws (ThrownError
      "PluginLedgerConnectorPolkadot#transactMnemonicString() The transaction failed. InnerException: transaction not successful").
Proof.
  apply (@C1_first_inclusion_decides Fixture.typed_client Fixture.plugin
           Fixture.by_mnemonic [Fixture.note [] Ready]
           [Fixture.note Fixture.ok_events (Finalized [1%N])]
           (Fixture.note Fixture.failed_events (InBlock [1%N]))
           Fixture.chain (MkPair "//Alice")
           (BalancesTransfer (Some "5Bob") (Some 30%Z)) [1%N]).
  - reflexivity.
  - reflexivity.
  - reflexivity.
  - repeat constructor.
  - reflexivity.
Defined.

(** The event list of a failed transfer reaches the log of the subscription,
    not the caller. *)
Example failed_transfer_events_stay_in_callback :
  @transactMnemonicString Fixture.typed_client Fixture.plugin Fixture.by_mnemonic
    [Fixture.note Fixture.failed_events (InBlock [1%N])]
  = ([KeyringCreateFromUri (Some "//Alice");
      SignAndSend (BalancesTransfer (Some "5Bob") (Some 30%Z)) (MkPair "//Alice");
      CallbackThrew (ThrownError
        "Transaction Failed: The expected system.ExtrinsicSuccess event was not detected.events emitted are system.ExtrinsicFailed")],
     Throws (ThrownError
       "PluginLedgerConnectorPolkadot#transactMnemonicString() The transaction failed. InnerException: transaction not successful")).
Proof. reflexivity. Qed.

(** ** How the completion depends on the notifications *)

(** A promise can only be fulfilled by a [resolve] of its callback. *)
Lemma deliver_fulfilled_inv {N T} (b : bool) (cb : N -> CallbackRun T)
    (ns : list N) (p : PromiseState T) (v : T) :
  (deliver b cb ns p).1 = Fulfilled v ->
  p = Fulfilled v \/ exists n, n ∈ ns /\ settled (cb n) = Some (Resolve v).
Proof.
  revert p. induction ns as [|n ns IH]; intros p Hd; simpl in Hd; [now left|].
  assert (Hstep : apply_run p (cb n) = Fulfilled v ->
                  p = Fulfilled v \/ settled (cb n) = Some (Resolve v)).
  { unfold apply_run. destruct (settled (cb n)) as [s|]; [|now left].
    destruct p; simpl; try (now left); destruct s; intros Hs; try discriminate.
    right. congruence. }
  assert (Hrest : (deliver b cb ns (apply_run p (cb n))).1 = Fulfilled v ->
                  p = Fulfilled v \/
                  exists m, m ∈ n :: ns /\ settled (cb m) = Some (Resolve v)).
  { intros Hr. destruct (IH _ Hr) as [Hp | (m & Hm & Hs)].
    - destruct (Hstep Hp) as [Hp' | Hs]; [now left|].
      right. exists n. split; [constructor | exact Hs].
    - right. exists m. split; [now constructor | exact Hs]. }
  destruct (threw (cb n)).
  - destruct b.
    + simpl in Hd. destruct (Hstep Hd) as [Hp | Hs]; [now left|].
      right. exists n. split; [constructor | exact Hs].
    + apply Hrest.
      destruct (deliver false cb ns (apply_run p (cb n))); exact Hd.
  - apply Hrest. exact Hd.
Qed.

Section Completions.
Context `{ChainClient}.



(** A response of the keypair path comes from a fulfilled promise. *)
Lemma transactMnemonicString_returns (P : Plugin) (req : RunTransactionRequest)
    (feed : list SubmittableResult) (resp : RunTransactionResponse) :
  completion (transactMnemonicString P req feed) = Returns resp ->
  exists r,
    (deliver stop_on_throw mnemonic_callback feed Pending).1 = Fulfilled r /\
    resp = MkRunResponse (tr_success r) (Some (tr_transactionHash r))
             (Some (tr_blockhash r)).
Proof.
  unfold transactMnemonicString.
  destruct (api P); [|discriminate]. unfold_monad.
  destruct (createFromUri _); [|discriminate].
  destruct (balances_transfer _ _); [|discriminate]. simpl.
  destruct (deliver stop_on_throw mnemonic_callback feed Pending) as [[|r|e] t];
    simpl; intros Hc; try discriminate.
  exists r. split; [reflexivity | congruence].
Qed.

Lemma transactSigned_returns (P : Plugin) (req : RunTransactionRequest)
    (feed : list ExtrinsicStatus) (resp : RunTransactionResponse) :
  completion (transactSigned P req feed) = Returns resp ->
  exists r,
    (deliver stop_on_throw signed_callback feed Pending).1 = Fulfilled r /\
    resp = MkRunResponse true (Some (tr_transactionHash r))
             (Some (tr_blockhash r)).
Proof.
  unfold transactSigned.
  destruct (negb _); [discriminate|].
  destruct (api P); [|discriminate]. unfold_monad.
  destruct (api_tx _) as [ext|]; [|discriminate].
  cbn -[truthy_string isHex deliver signed_callback String.append].
  destruct (negb (truthy_string _)); [discriminate|].
  destruct (negb (isHex _)); [discriminate|].
  cbn -[deliver signed_callback String.append].
  destruct (deliver stop_on_throw signed_callback feed Pending) as [[|r|e] t];
    simpl; intros Hc; try discriminate.
  exists r. split; [reflexivity | congruence].
Qed.

End Completions.

(** ** Submissions that are never included *)

(** On the keypair path a dropped submission leaves the caller waiting. *)
Lemma C4_dropped_keypair_submission_hangs :
  completion
    (@transactMnemonicString Fixture.typed_client Fixture.plugin Fixture.by_mnemonic
       [Fixture.note [] Ready; Fixture.note [] Dropped])
  = Hangs.
Proof. reflexivity. Qed.

(** C4, as the code has it.  On the keypair path, when no notification
    reports block inclusion the bridge ignores every notification, whatever
    its status is: the transfer has been handed to the signer and the call of
    the caller stays pending. *)
Theorem C4_never_included `{ChainClient}
    (P : Plugin) (req : RunTransactionRequest)
    (feed : list SubmittableResult) chain pair call :
  api P = Some chain ->
  createFromUri (credential_mnemonic (web3SigningCredential req)) = inl pair ->
  balances_transfer (to (transactionConfig req)) (value (transactionConfig req))
    = inl call ->
  Forall not_included feed ->
  transactMnemonicString P req feed =
    ([KeyringCreateFromUri (credential_mnemonic (web3SigningCredential req));
      SignAndSend call pair], Hangs).
Proof.
  intros Hapi Hpair Hcall Hfeed.
  pose proof (mnemonic_promise_never_included feed Hfeed) as Hpending.
  assert (Hquiet : (deliver stop_on_throw mnemonic_callback feed Pending).2 = []).
  { rewrite <- (app_nil_r feed).
    rewrite deliver_quiet_prefix; [reflexivity|].
    eapply Forall_impl; [exact Hfeed | apply mnemonic_callback_not_included]. }
  unfold transactMnemonicString. rewrite Hapi. unfold_monad.
  rewrite Hpair, Hcall. cbn -[deliver mnemonic_callback String.append].
  destruct (deliver stop_on_throw mnemonic_callback feed Pending) as [p t].
  cbn in Hpending, Hquiet. subst p t. reflexivity.
Qed.

Lemma C4_never_included_witness :
  @transactMnemonicString Fixture.checked_client Fixture.plugin Fixture.by_mnemonic
    [Fixture.note [] Ready; Fixture.note [] Broadcast; Fixture.note [] Invalid]
  = ([KeyringCreateFromUri (Some "//Alice");
      SignAndSend (BalancesTransfer (Some "5Bob") (Some 30%Z)) (MkPair "//Alice")],
     Hangs).
Proof.
  apply (@C4_never_included Fixture.checked_client Fixture.plugin
           Fixture.by_mnemonic
           [Fixture.note [] Ready; Fixture.note [] Broadcast; Fixture.note [] Invalid]
           Fixture.chain (MkPair "//Alice")
           (BalancesTransfer (Some "5Bob") (Some 30%Z))).
  - reflexivity.
  - reflexivity.
  - reflexivity.
  - repeat constructor.
Defined.

(** On the pre-signed path a client whose accessors throw on other variants
    leaves the caller waiting as well. *)
Lemma transactSigned_unread_hangs `{ChainClient}
    (P : Plugin) (req : RunTransactionRequest) (feed : list ExtrinsicStatus)
    chain signedTx ext :
  transferSubmittable (transactionConfig req) = Some signedTx ->
  truthy_string (Some signedTx) = true ->
  api P = Some chain ->
  api_tx signedTx = inl ext ->
  truthy_string (Some (signature_toHex ext)) = true ->
  isHex (signature_toHex ext) = true ->
  Forall unreadable feed ->
  completion (transactSigned P req feed) = Hangs.
Proof.
  intros Hsub Htruthy Hapi Htx Hsig Hhex Hfeed.
  rewrite (transactSigned_run P _ _ chain signedTx ext
             Hsub Htruthy Hapi Htx Hsig Hhex).
  now rewrite (signed_promise_unread _ feed Pending Hfeed).
Qed.

(** ** One outcome, committed once *)



(** ** Hashes of a successful outcome *)

Lemma toHex_not_empty (h : Hash) : toHex h <> EmptyString.
Proof. unfold toHex. simpl. discriminate. Qed.

Section Hashes.
Context `{ChainClient}.

Lemma mnemonic_callback_resolves (n : SubmittableResult) (r : TxResult) :
  settled (mnemonic_callback n) = Some (Resolve r) ->
  exists h1 h2, r = MkTxResult true (toHex h1) (toHex h2).
Proof.
  unfold mnemonic_callback.
  destruct (status n); simpl; try discriminate.
  destruct (find is_success_event _); simpl; intros Hs; [|discriminate].
  injection Hs as <-. eauto.
Qed.

Lemma signed_callback_resolves (s : ExtrinsicStatus) (r : TxResult) :
  settled (signed_callback s) = Some (Resolve r) ->
  exists h1 h2, r = MkTxResult true (toHex h1) (toHex h2).
Proof.
  unfold signed_callback.
  destruct (asInBlock s); simpl; [|discriminate].
  destruct (isInBlock s); simpl; intros Hs; [|discriminate].
  injection Hs as <-. eauto.
Qed.

Lemma completion_after_keychain_get {A} (id key : string)
    (keychain : gmap string string) (k : string -> M A) (a : A) :
  completion (keychain_get id key keychain ≫= k) = Returns a ->
  exists secret, keychain !! key = Some secret /\ completion (k secret) = Returns a.
Proof.
  unfold keychain_get. unfold_monad.
  destruct (keychain !! key) as [secret|]; simpl; [|discriminate].
  intros Hc. exists secret. split; [reflexivity|].
  destruct (k secret) as [t c]. exact Hc.
Qed.

End Hashes.

(** C6.  Whenever [transact] returns a response with [success = true], on
    any of its paths, both [txHash] and [blockHash] are present and are not
    the empty string. *)
Theorem C6_success_has_hashes `{ChainClient}
    (P : Plugin) (req : RunTransactionRequest)
    (feed : list SubmittableResult) (raw_feed : list ExtrinsicStatus)
    (resp : RunTransactionResponse) :
  completion (transact P req feed raw_feed) = Returns resp ->
  success resp = true ->
  exists tx blk,
    txHash_out resp = Some tx /\ blockHash_out resp = Some blk /\
    tx <> EmptyString /\ blk <> EmptyString.
Proof.
  intros Hc _.
  assert (Hkeypair : forall req',
    completion (transactMnemonicString P req' feed) = Returns resp ->
    exists tx blk,
      txHash_out resp = Some tx /\ blockHash_out resp = Some blk /\
      tx <> EmptyString /\ blk <> EmptyString).
  { intros req' Hr.
    destruct (transactMnemonicString_returns P req' feed resp Hr) as (r & Hd & ->).
    destruct (deliver_fulfilled_inv _ _ _ _ _ Hd) as [Hp | (n & _ & Hn)];
      [discriminate|].
    destruct (mnemonic_callback_resolves n r Hn) as (h1 & h2 & ->).
    exists (toHex h1), (toHex h2). simpl.
    repeat split; apply toHex_not_empty. }
  unfold transact in Hc.
  destruct (web3SigningCredential req) as [m | key id | | t] eqn:Hcred.
  - now apply (Hkeypair req).
  - unfold transactCactusKeychainRef in Hc. rewrite Hcred in Hc. simpl in Hc.
    destruct (pluginRegistry P !! id) as [keychain|]; [|discriminate].
    apply completion_after_keychain_get in Hc as (secret & _ & Hc).
    now apply (Hkeypair _ Hc).
  - destruct (truthy_string _); [|discriminate].
    destruct (transactSigned_returns P req raw_feed resp Hc) as (r & Hd & ->).
    destruct (deliver_fulfilled_inv _ _ _ _ _ Hd) as [Hp | (n & _ & Hn)];
      [discriminate|].
    destruct (signed_callback_resolves n r Hn) as (h1 & h2 & ->).
    exists (toHex h1), (toHex h2). simpl.
    repeat split; apply toHex_not_empty.
  - discriminate.
Qed.

Lemma C6_success_has_hashes_witness :
  exists tx blk,
    Some "0x07" = Some tx /\ Some "0x01" = Some blk /\
    tx <> EmptyString /\ blk <> EmptyString.
Proof.
  apply (@C6_success_has_hashes Fixture.checked_client Fixture.plugin
           (Fixture.pre_signed "0xabcd") [] [Ready; InBlock [1%N]]
           (MkRunResponse true (Some "0x07") (Some "0x01"))).
  - reflexivity.
  - reflexivity.
Defined.

(** ** Keychain references *)

(** C7.  With a keychain-reference credential, when the keychain exists and
    holds the secret [s] under the entry key, the outcome is the outcome of
    the mnemonic path called with [s] and the same transaction configuration,
    and the only additional collaborator call is the keychain lookup; when the
    keychain does not exist the call fails before any collaborator is called,
    so no signer is derived and nothing is signed. *)
Theorem C7_keychain_refines_mnemonic `{ChainClient}
    (P : Plugin) (req : RunTransactionRequest) (feed : list SubmittableResult)
    (entryKey keychainId : string) :
  web3SigningCredential req = CactusKeychainRef entryKey keychainId ->
  match pluginRegistry P !! keychainId with
  | Some keychain =>
      forall s, keychain !! entryKey = Some s ->
        let by_mnemonic :=
          transactMnemonicString P
            (MkRunRequest (MnemonicString s) (transactionConfig req)) feed in
        completion (transactCactusKeychainRef P req feed) = completion by_mnemonic /\
        trace (transactCactusKeychainRef P req feed) =
          KeychainGet keychainId entryKey :: trace by_mnemonic
  | None =>
      transactCactusKeychainRef P req feed =
        ([], Throws (falsy_check
               (className +:+ "#transactCactusKeychainRef()" +:+ " keychain for ID:"
                +:+ dquote +:+ keychainId +:+ dquote)))
  end.
Proof.
  intros Hcred. unfold transactCactusKeychainRef. rewrite Hcred. simpl.
  destruct (pluginRegistry P !! keychainId) as [keychain|]; [|reflexivity].
  intros s Hs. unfold keychain_get. rewrite Hs. unfold_monad.
  destruct (transactMnemonicString P _ feed) as [t c]. simpl. split; reflexivity.
Qed.

Lemma C7_keychain_refines_mnemonic_witness :
  completion
    (@transactCactusKeychainRef Fixture.typed_client Fixture.plugin
       Fixture.by_keychain [Fixture.note Fixture.ok_events (InBlock [1%N])])
  = completion
      (@transactMnemonicString Fixture.typed_client Fixture.plugin
         Fixture.by_mnemonic [Fixture.note Fixture.ok_events (InBlock [1%N])]).
Proof.
  pose proof (@C7_keychain_refines_mnemonic Fixture.typed_client Fixture.plugin
                Fixture.by_keychain
                [Fixture.note Fixture.ok_events (InBlock [1%N])]
                "entry" "kc1" eq_refl) as Hc.
  change (pluginRegistry Fixture.plugin !! "kc1")
    with (Some ({[ "entry" := "//Alice" ]} : gmap string string)) in Hc.
  exact (proj1 (Hc "//Alice" eq_refl)).
Defined.

(** A reference to a keychain that is not registered: no lookup, no signer. *)
Example unknown_keychain_fails_first :
  @transactCactusKeychainRef Fixture.typed_client Fixture.plugin
    (MkRunRequest (CactusKeychainRef "entry" "nowhere") Fixture.transfer)
    [Fixture.note Fixture.ok_events (InBlock [1%N])]
  = ([], Throws (ThrownError
       (dquote
        +:+ "PluginLedgerConnectorPolkadot#transactCactusKeychainRef() keychain for ID:"
        +:+ dquote +:+ "nowhere" +:+ dquote +:+ dquote
        +:+ " is falsy, need a truthy value."))).
Proof. vm_compute. reflexivity. Qed.

(** ** Credentials that cannot deploy *)

(** C2.  A deployment whose signing credential is the pre-signed ([NONE])
    variant fails whatever the other parameters of the request are and
    whatever the node would report, without any collaborator call: on a
    connected plugin the error says that a contract cannot be deployed with a
    pre-signed transaction. *)
Theorem C2_presigned_deploy_rejected `{ChainClient}
    (P : Plugin) (req : DeployContractInkRequest) (feed : list SubmittableResult) :
  dc_web3SigningCredential req = NoneCredential ->
  trace (deployContract P req feed) = [] /\
  completion (deployContract P req feed) =
    Throws (match api P with
            | Some _ =>
                ThrownError
                  (className +:+ "#deployContract()"
                   +:+ " Cannot deploy contract with pre-signed TX")
            | None => not_connected
            end).
Proof.
  intros Hcred. unfold deployContract.
  destruct (api P); [|split; reflexivity].
  rewrite Hcred. split; reflexivity.
Qed.

Lemma C2_presigned_deploy_rejected_witness :
  trace
    (@deployContract Fixture.typed_client Fixture.plugin
       (Fixture.deploy NoneCredential (Some [JsBool false]))
       [Fixture.instantiated (InBlock [1%N]) "5Contract"]) = [] /\
  completion
    (@deployContract Fixture.typed_client Fixture.plugin
       (Fixture.deploy NoneCredential (Some [JsBool false]))
       [Fixture.instantiated (InBlock [1%N]) "5Contract"]) =
    Throws (ThrownError
      "PluginLedgerConnectorPolkadot#deployContract() Cannot deploy contract with pre-signed TX").
Proof.
  apply (@C2_presigned_deploy_rejected Fixture.typed_client Fixture.plugin
           (Fixture.deploy NoneCredential (Some [JsBool false]))
           [Fixture.instantiated (InBlock [1%N]) "5Contract"]).
  reflexivity.
Defined.

(** ** Validation of a pre-signed payload *)

(** A rendering by [toHex()] passes [isHex]. *)
Lemma is_hex_digit_hex_digit (n : N) : is_hex_digit (hex_digit n) = true.
Proof.
  destruct n as [|p]; [reflexivity|].
  do 5 (try (destruct p as [p|p|]; try reflexivity)).
Qed.

Lemma hex_bytes_all_hex (h : Hash) :
  all_hex (hex_bytes h) = true /\
  Nat.even (String.length (hex_bytes h)) = true.
Proof.
  induction h as [|b h [IHhex IHlen]]; [now split|].
  cbn [hex_bytes all_hex String.length].
  rewrite !is_hex_digit_hex_digit, IHhex. split; [reflexivity | exact IHlen].
Qed.

Lemma isHex_toHex (h : Hash) : isHex (toHex h) = true.
Proof.
  destruct (hex_bytes_all_hex h) as [Hhex Hlen].
  change (toHex h) with (String "0" (String "x" (hex_bytes h))).
  cbn [isHex String.length Nat.even]. now rewrite Hhex, Hlen.
Qed.

(** C3.  The two signature tests of [transactSigned] look at the rendering
    [signature.toHex()].  Such a rendering is never empty and always valid
    hexadecimal, so a payload passes both tests whatever its signature bytes
    are, also when they are the zero bytes of a transaction that was never
    signed: the payload is handed to [submitAndWatchExtrinsic] and the call
    ends as the node decides, with neither the not-signed nor the
    invalid-signature error. *)
Theorem C3_unsigned_payload_is_submitted `{ChainClient}
    (P : Plugin) (req : RunTransactionRequest) (feed : list ExtrinsicStatus)
    chain signedTx ext (signature : Hash) :
  api P = Some chain ->
  transferSubmittable (transactionConfig req) = Some signedTx ->
  truthy_string (Some signedTx) = true ->
  api_tx signedTx = inl ext ->
  signature_toHex ext = toHex signature ->
  (exists t,
     trace (transactSigned P req feed) = SubmitAndWatchExtrinsic signedTx :: t) /\
  completion (transactSigned P req feed) =
    match (deliver stop_on_throw signed_callback feed Pending).1 with
    | Fulfilled r =>
        Returns (MkRunResponse true (Some (tr_transactionHash r))
                   (Some (tr_blockhash r)))
    | Rejected e => Throws (signed_failure e)
    | Pending => Hangs
    end.
Proof.
  intros Hapi Hsub Htruthy Htx Hsig.
  assert (Hnonempty : truthy_string (Some (signature_toHex ext)) = true)
    by (rewrite Hsig; reflexivity).
  assert (Hhex : isHex (signature_toHex ext) = true)
    by (rewrite Hsig; apply isHex_toHex).
  split;
    [|exact (transactSigned_run P req feed chain signedTx ext
               Hsub Htruthy Hapi Htx Hnonempty Hhex)].
  unfold transactSigned. rewrite Hsub, Htruthy, Hapi.
  change (default EmptyString (Some signedTx)) with signedTx.
  cbn [negb]. unfold_monad. rewrite Htx.
  cbn -[truthy_string isHex deliver signed_callback String.append].
  rewrite Hnonempty, Hhex. cbn -[deliver signed_callback String.append].
  destruct (deliver stop_on_throw signed_callback feed Pending) as [[|r|e] t];
    cbn -[String.append]; eauto.
Qed.

Lemma C3_unsigned_payload_is_submitted_witness :
  (exists t,
     trace (@transactSigned Sample.unsigned_client Fixture.plugin
              (Fixture.pre_signed "0x9c0403008eaf") [Ready; InBlock [1%N]])
     = SubmitAndWatchExtrinsic "0x9c0403008eaf" :: t) /\
  completion (@transactSigned Sample.unsigned_client Fixture.plugin
                (Fixture.pre_signed "0x9c0403008eaf") [Ready; InBlock [1%N]])
  = Returns (MkRunResponse true (Some "0x07") (Some "0x01")).
Proof.
  apply (@C3_unsigned_payload_is_submitted Sample.unsigned_client Fixture.plugin
           (Fixture.pre_signed "0x9c0403008eaf") [Ready; InBlock [1%N]]
           Fixture.chain "0x9c0403008eaf"
           (MkExtrinsic (toHex (repeat 0%N 64))) (repeat 0%N 64)).
  - reflexivity.
  - reflexivity.
  - reflexivity.
  - reflexivity.
  - reflexivity.
Defined.

(** ** The instantiate call of a deployment *)

Lemma submitted_calls_app (t1 t2 : list Effect) :
  submitted_calls (t1 ++ t2) = submitted_calls t1 ++ submitted_calls t2.
Proof.
  induction t1 as [|e t1 IH]; simpl; [reflexivity|].
  destruct e; simpl; rewrite IH; reflexivity.
Qed.

Lemma counter_increments_app (t1 t2 : list Effect) :
  counter_increments (t1 ++ t2) = counter_increments t1 + counter_increments t2.
Proof.
  induction t1 as [|e t1 IH]; simpl; [reflexivity|].
  destruct e; simpl; rewrite IH; reflexivity.
Qed.

(** The subscription itself only adds the exceptions of its callback to the
    trace. *)
Lemma deliver_trace {N T} (b : bool) (cb : N -> CallbackRun T)
    (ns : list N) (p : PromiseState T) :
  submitted_calls (deliver b cb ns p).2 = [] /\
  counter_increments (deliver b cb ns p).2 = 0.
Proof.
  revert p. induction ns as [|n ns IH]; intros p; simpl; [now split|].
  destruct (threw (cb n)).
  - destruct b; [now split|].
    specialize (IH (apply_run p (cb n))).
    destruct (deliver false cb ns (apply_run p (cb n))); exact IH.
  - apply IH.
Qed.

(** C8.  A deployment that reaches the signer hands it exactly one call: the
    instantiate call of the constructor at index 0 of the parsed ABI, with the
    request's code and options.  Its arguments are the request's [params]
    when there are some, and the single value [undefined] when [params] is
    empty or absent. *)
Theorem C8_first_constructor_and_marker `{ChainClient}
    (P : Plugin) (req : DeployContractInkRequest) (feed : list SubmittableResult)
    chain t0 mnemonic ctor others pair :
  api P = Some chain ->
  deploy_mnemonic P (dc_web3SigningCredential req) = (t0, Returns mnemonic) ->
  parseAbi (dc_metadata req) = inl (ctor :: others) ->
  createFromUri mnemonic = inl pair ->
  (forall call, tx_truthy call = true) ->
  exists args,
    submitted_calls (trace (deployContract P req feed)) =
      [Instantiate (dc_wasm req) (ctor_method ctor)
         (MkContractOptions (refTime (dc_gasLimit req)) (proofSize (dc_gasLimit req))
            (dc_storageDepositLimit req) (dc_salt req) (dc_balance req))
         args] /\
    (dc_params req = None \/ dc_params req = Some [] -> args = [JsUndefined]) /\
    (forall p ps, dc_params req = Some (p :: ps) -> args = p :: ps).
Proof.
  intros Hapi Hmn Habi Hpair Htx.
  exists (constructor_args (dc_params req)). split; [|split].
  - assert (Ht0 : submitted_calls t0 = []).
    { unfold deploy_mnemonic in Hmn.
      destruct (dc_web3SigningCredential req) as [m | key id | | t];
        try discriminate.
      - injection Hmn as <- _. reflexivity.
      - destruct (pluginRegistry P !! id) as [kc|]; [|discriminate].
        unfold keychain_get in Hmn. unfold_monad.
        destruct (kc !! key); [|discriminate].
        injection Hmn as <- _. reflexivity. }
    unfold deployContract. rewrite Hapi. unfold_monad. rewrite Hmn, Habi.
    cbn -[deliver deploy_callback String.append constructor_args].
    rewrite Hpair.
    cbn -[deliver deploy_callback String.append constructor_args].
    rewrite Htx.
    pose proof (deliver_trace stop_on_throw deploy_callback feed Pending)
      as [Hcalls _].
    destruct (deliver stop_on_throw deploy_callback feed Pending)
      as [[|[ok address]|e] t];
      cbn -[String.append constructor_args] in *;
      try (destruct (truthy_string address));
      cbn -[String.append constructor_args];
      rewrite ?submitted_calls_app, ?Ht0;
      cbn -[String.append constructor_args];
      rewrite ?submitted_calls_app, ?Hcalls; try reflexivity.
  - intros [-> | ->]; reflexivity.
  - intros p ps ->. reflexivity.
Qed.

Lemma C8_first_constructor_and_marker_witness :
  exists args,
    submitted_calls
      (trace
         (@deployContract Fixture.typed_client Fixture.plugin
            (Fixture.deploy (CactusKeychainRef "entry" "kc1") (Some []))
            [Fixture.instantiated (InBlock [1%N]) "5Contract"])) =
      [Instantiate "AGFzbQ==" "new"
         (MkContractOptions 6219235328 131072 None None None) args] /\
    (@Some (list JsValue) [] = None \/ @Some (list JsValue) [] = Some []
     -> args = [JsUndefined]) /\
    (forall p ps, @Some (list JsValue) [] = Some (p :: ps) -> args = p :: ps).
Proof.
  apply (@C8_first_constructor_and_marker Fixture.typed_client Fixture.plugin
           (Fixture.deploy (CactusKeychainRef "entry" "kc1") (Some []))
           [Fixture.instantiated (InBlock [1%N]) "5Contract"]
           Fixture.chain [KeychainGet "kc1" "entry"] (Some "//Alice")
           (MkConstructor "new") [MkConstructor "default"] (MkPair "//Alice")).
  - reflexivity.
  - reflexivity.
  - reflexivity.
  - reflexivity.
  - reflexivity.
Defined.

(** A deployment without constructor parameters, end to end. *)
Example deploy_without_params :
  @deployContract Fixture.typed_client Fixture.plugin
    (Fixture.deploy (MnemonicString "//Alice") None)
    [Fixture.instantiated (InBlock [1%N]) "5Contract"]
  = ([KeyringCreateFromUri (Some "//Alice");
      SignAndSend
        (Instantiate "AGFzbQ==" "new"
           (MkContractOptions 6219235328 131072 None None None) [JsUndefined])
        (MkPair "//Alice")],
     Returns (MkDeployResponse true (Some "5Contract"))).
Proof. reflexivity. Qed.

(** ** Transaction information *)


(** A window of 500 blocks gives an era of 512 blocks. *)
Example window_500_gives_period_512 :
  completion
    (@obtainTransactionInformation Fixture.plugin
       (MkInfoRequest (Some "5Alice") (Some 500%Z)))
  = Returns
      (MkInfoResponse (MkSignerOptions 3 [1%N; 2%N] (MkEra 512 100)) true
         "obtainTransactionInformation").
Proof. reflexivity. Qed.




(** A window below zero: the library refuses the era and the call fails. *)
Example negative_window_fails :
  completion
    (@obtainTransactionInformation Fixture.plugin
       (MkInfoRequest (Some "5Alice") (Some (-5)%Z)))
  = Throws (ThrownError
      "PluginLedgerConnectorPolkadot#obtainTxInformation() Obtaining info for this transaction has failed. InnerException: Error: createType(ExtrinsicEra):: period cannot be encoded").
Proof. reflexivity. Qed.

(** ** The transaction counter in a deployment *)

Section DeployCounter.
Context `{ChainClient}.

(** Resolving the credential of a deployment does not touch the counter. *)
Lemma deploy_mnemonic_no_increment (P : Plugin) (c : Web3SigningCredential) :
  counter_increments (trace (deploy_mnemonic P c)) = 0.
Proof.
  unfold deploy_mnemonic. destruct c as [m | key id | | t]; try reflexivity.
  destruct (pluginRegistry P !! id) as [kc|]; [|reflexivity].
  unfold keychain_get. unfold_monad. destruct (kc !! key); reflexivity.
Qed.

(** The trace and completion of a deployment, case by case. *)
Lemma deployContract_counter (P : Plugin) (req : DeployContractInkRequest)
    (feed : list SubmittableResult) :
  match completion (deployContract P req feed) with
  | Returns resp =>
      counter_increments (trace (deployContract P req feed)) =
        if truthy_string (dr_address resp) then 0 else 1
  | _ => counter_increments (trace (deployContract P req feed)) = 0
  end.
Proof.
  unfold deployContract. destruct (api P); [|reflexivity].
  pose proof (deploy_mnemonic_no_increment P (dc_web3SigningCredential req))
    as Hmn.
  unfold_monad.
  destruct (deploy_mnemonic P (dc_web3SigningCredential req)) as [t0 [m| |]];
    simpl in Hmn; [|exact Hmn|exact Hmn].
  destruct (parseAbi (dc_metadata req)) as [[|ctor others]|];
    cbn -[deliver deploy_callback String.append constructor_args];
    rewrite ?app_nil_r; try exact Hmn.
  - destruct (createFromUri m);
      cbn -[deliver deploy_callback String.append constructor_args];
      rewrite counter_increments_app, Hmn; reflexivity.
  - destruct (createFromUri m);
      cbn -[deliver deploy_callback String.append constructor_args];
      [|rewrite counter_increments_app, Hmn; reflexivity].
    destruct (tx_truthy _);
      cbn -[deliver deploy_callback String.append constructor_args];
      [|rewrite counter_increments_app, Hmn; reflexivity].
    pose proof (deliver_trace stop_on_throw deploy_callback feed Pending)
      as [_ Hinc].
    destruct (deliver stop_on_throw deploy_callback feed Pending)
      as [[|[ok address]|e] t];
      cbn -[String.append constructor_args truthy_string] in *;
      try (destruct (truthy_string address) eqn:Haddr);
      cbn -[String.append constructor_args truthy_string];
      rewrite ?Haddr, ?counter_increments_app; cbn [counter_increments];
      rewrite ?counter_increments_app, ?Hmn, ?Hinc; reflexivity.
Qed.

End DeployCounter.

(** The address of a response of [deployContract], once the instantiate call
    is built, is the address of a contract that a notification carried. *)
Lemma deployContract_returns_address `{ChainClient}
    (P : Plugin) (req : DeployContractInkRequest) (feed : list SubmittableResult)
    (resp : DeployContractInkResponse) :
  (forall call, tx_truthy call = true) ->
  completion (deployContract P req feed) = Returns resp ->
  exists n address,
    n ∈ feed /\ contract n = Some address /\ dr_address resp = Some address.
Proof.
  intros Htx. unfold deployContract. destruct (api P); [|discriminate].
  unfold_monad.
  destruct (deploy_mnemonic P (dc_web3SigningCredential req)) as [t0 [m| |]];
    [|discriminate|discriminate].
  destruct (parseAbi (dc_metadata req)) as [[|ctor others]|];
    cbn -[deliver deploy_callback String.append constructor_args];
    try discriminate.
  - destruct (createFromUri m); discriminate.
  - destruct (createFromUri m);
      cbn -[deliver deploy_callback String.append constructor_args];
      [|discriminate].
    rewrite Htx.
    pose proof (deliver_fulfilled_inv stop_on_throw deploy_callback feed Pending)
      as Hinv.
    destruct (deliver stop_on_throw deploy_callback feed Pending)
      as [[|[ok address]|e] t];
      cbn -[String.append constructor_args truthy_string] in *;
      try discriminate.
    destruct (Hinv _ eq_refl) as [Hp | (n & Hn & Hs)]; [discriminate|].
    unfold deploy_callback in Hs.
    destruct (isInBlock (status n) || isFinalized (status n)); [|discriminate].
    destruct (dispatchError n) as [[me|text]|]; try discriminate.
    destruct (contract n) as [a|] eqn:Hc; [|discriminate].
    cbn in Hs. injection Hs as <- <-.
    intros Hresp. exists n, a. repeat split; try assumption.
    destruct (truthy_string (Some a));
      cbn -[String.append constructor_args] in Hresp;
      injection Hresp as <-; reflexivity.
Qed.

(** C10.  Once the instantiate call is built and the addresses of
    instantiated contracts are not empty, no run of [deployContract]
    increments the transaction counter: a deployment that fails, and so
    obtains no contract address, throws before the test of the address is
    reached, and a deployment that returns has an address. *)
Theorem C10_deployment_never_counted `{ChainClient}
    (P : Plugin) (req : DeployContractInkRequest) (feed : list SubmittableResult) :
  (forall call, tx_truthy call = true) ->
  Forall (fun n => contract n <> Some EmptyString) feed ->
  counter_increments (trace (deployContract P req feed)) = 0.
Proof.
  intros Htx Hfeed.
  pose proof (deployContract_counter P req feed) as Hc.
  pose proof (deployContract_returns_address P req feed) as Haddr.
  destruct (completion (deployContract P req feed)) as [resp| |];
    [|exact Hc|exact Hc].
  destruct (Haddr resp Htx eq_refl) as (n & address & Hn & Hcontract & Hresp).
  rewrite Hresp in Hc.
  destruct address as [|c address]; [|exact Hc].
  rewrite Forall_forall in Hfeed. now destruct (Hfeed n Hn).
Qed.

Lemma C10_deployment_never_counted_witness :
  counter_increments
    (trace (@deployContract Fixture.typed_client Fixture.plugin
              (Fixture.deploy (MnemonicString "//Alice") (Some [JsBool false]))
              [Fixture.instantiated Ready "5Contract";
               Sample.dispatch_failed (InBlock [1%N])])) = 0.
Proof.
  apply (@C10_deployment_never_counted Fixture.typed_client Fixture.plugin
           (Fixture.deploy (MnemonicString "//Alice") (Some [JsBool false]))
           [Fixture.instantiated Ready "5Contract";
            Sample.dispatch_failed (InBlock [1%N])]).
  - reflexivity.
  - repeat constructor; discriminate.
Defined.

(** A deployment that the node reports as failed throws, and the counter
    stays as it was. *)
Example failed_deployment_leaves_counter :
  @deployContract Fixture.typed_client Fixture.plugin
    (Fixture.deploy (MnemonicString "//Alice") (Some [JsBool false]))
    [MkResult None (InBlock [1%N]) [9%N] None
       (Some (ModuleDispatchError (MkModuleError 7 2)))]
  = ([KeyringCreateFromUri (Some "//Alice");
      SignAndSend
        (Instantiate "AGFzbQ==" "new"
           (MkContractOptions 6219235328 131072 None None None) [JsBool false])
        (MkPair "//Alice");
      CallbackThrew (ThrownError "contracts.OutOfGas: Out of gas")],
     Throws (ThrownError
       "PluginLedgerConnectorPolkadot#deployContract() The contract upload and deployment failed. InnerException: deployment not successful")).
Proof. reflexivity. Qed.

(** ** What a run hands to the node *)

Lemma node_submissions_app (t1 t2 : list Effect) :
  node_submissions (t1 ++ t2) = node_submissions t1 + node_submissions t2.
Proof.
  induction t1 as [|e t1 IH]; simpl; [reflexivity|].
  destruct e; simpl; rewrite IH; reflexivity.
Qed.

Lemma signer_derivations_app (t1 t2 : list Effect) :
  signer_derivations (t1 ++ t2) = signer_derivations t1 + signer_derivations t2.
Proof.
  induction t1 as [|e t1 IH]; simpl; [reflexivity|].
  destruct e; simpl; rewrite IH; reflexivity.
Qed.

(** The exceptions of a callback are neither submissions nor derivations. *)
Lemma deliver_trace_local {N T} (b : bool) (cb : N -> CallbackRun T)
    (ns : list N) (p : PromiseState T) :
  node_submissions (deliver b cb ns p).2 = 0 /\
  signer_derivations (deliver b cb ns p).2 = 0.
Proof.
  revert p. induction ns as [|n ns IH]; intros p; simpl; [now split|].
  destruct (threw (cb n)).
  - destruct b; [now split|].
    specialize (IH (apply_run p (cb n))).
    destruct (deliver false cb ns (apply_run p (cb n))); exact IH.
  - apply IH.
Qed.

Section Accounting.
Context `{ChainClient}.

(** The counts of one run of the keypair path, by the way it ends. *)
Lemma transactMnemonicString_counts (P : Plugin) (req : RunTransactionRequest)
    (feed : list SubmittableResult) :
  let run := transactMnemonicString P req feed in
  counter_increments (trace run) = 0 /\
  node_submissions (trace run) <= 1 /\
  signer_derivations (trace run) <= 1 /\
  (api P = None -> trace run = []) /\
  (forall resp, completion run = Returns resp -> node_submissions (trace run) = 1).
Proof.
  unfold transactMnemonicString.
  destruct (api P); [|cbn; repeat split; (lia || discriminate)].
  unfold_monad.
  destruct (createFromUri _);
    [|cbn; repeat split; (lia || discriminate)].
  destruct (balances_transfer _ _);
    [|cbn; repeat split; (lia || discriminate)].
  cbn -[deliver mnemonic_callback String.append].
  pose proof (deliver_trace stop_on_throw mnemonic_callback feed Pending)
    as [_ Hinc].
  pose proof (deliver_trace_local stop_on_throw mnemonic_callback feed Pending)
    as [Hsub Hder].
  destruct (deliver stop_on_throw mnemonic_callback feed Pending) as [[|r|e] t];
    cbn -[String.append] in *;
    rewrite ?app_nil_r, Hinc, Hsub, Hder;
    repeat split; (lia || discriminate || reflexivity || idtac).
Qed.

(** The counts of one run of the pre-signed path. *)
Lemma transactSigned_counts (P : Plugin) (req : RunTransactionRequest)
    (feed : list ExtrinsicStatus) :
  let run := transactSigned P req feed in
  signer_derivations (trace run) = 0 /\
  node_submissions (trace run) <= 1 /\
  (api P = None -> trace run = []) /\
  match completion run with
  | Returns _ =>
      counter_increments (trace run) = 1 /\ node_submissions (trace run) = 1
  | _ => counter_increments (trace run) = 0
  end.
Proof.
  unfold transactSigned.
  destruct (negb _); [cbn; repeat split; lia|].
  destruct (api P); [|cbn; repeat split; lia].
  unfold_monad.
  destruct (api_tx _) as [ext|]; [|cbn; repeat split; (lia || discriminate)].
  cbn -[truthy_string isHex deliver signed_callback String.append].
  destruct (negb (truthy_string _)); [cbn; repeat split; (lia || discriminate)|].
  destruct (negb (isHex _)); [cbn; repeat split; (lia || discriminate)|].
  cbn -[deliver signed_callback String.append].
  pose proof (deliver_trace stop_on_throw signed_callback feed Pending)
    as [_ Hinc].
  pose proof (deliver_trace_local stop_on_throw signed_callback feed Pending)
    as [Hsub Hder].
  destruct (deliver stop_on_throw signed_callback feed Pending) as [[|r|e] t];
    cbn -[String.append] in *;
    rewrite ?app_nil_r, ?counter_increments_app, ?node_submissions_app,
      ?signer_derivations_app, ?Hinc, ?Hsub, ?Hder;
    cbn; repeat split; (lia || discriminate).
Qed.

(** The keychain path adds one lookup in front of a run of the keypair
    path, or ends before it. *)
Lemma transactCactusKeychainRef_shape (P : Plugin) (req : RunTransactionRequest)
    (feed : list SubmittableResult) :
  (exists e t, transactCactusKeychainRef P req feed = (t, Throws e) /\
     counter_increments t = 0 /\ node_submissions t = 0 /\
     signer_derivations t = 0) \/
  (exists s id key,
     trace (transactCactusKeychainRef P req feed) =
       KeychainGet id key
       :: trace (transactMnemonicString P
                   (MkRunRequest (MnemonicString s) (transactionConfig req)) feed) /\
     completion (transactCactusKeychainRef P req feed) =
       completion (transactMnemonicString P
                     (MkRunRequest (MnemonicString s) (transactionConfig req)) feed)).
Proof.
  unfold transactCactusKeychainRef.
  destruct (credential_keychain _) as [key id].
  destruct (pluginRegistry P !! id) as [kc|];
    [|left; eexists _, _; repeat split; reflexivity].
  unfold keychain_get. unfold_monad.
  destruct (kc !! key) as [s|];
    [|left; eexists _, _; repeat split; reflexivity].
  right. exists s, id, key.
  destruct (transactMnemonicString P _ feed) as [t c]. split; reflexivity.
Qed.

End Accounting.

(** X1.  One call of [transact] derives at most one signer and hands at most
    one transaction to the node, on every path and for every notification
    sequence; a call that returns a response has handed over exactly one. *)
Theorem transact_submits_at_most_once `{ChainClient}
    (P : Plugin) (req : RunTransactionRequest)
    (feed : list SubmittableResult) (raw_feed : list ExtrinsicStatus) :
  let run := transact P req feed raw_feed in
  node_submissions (trace run) <= 1 /\
  signer_derivations (trace run) <= 1 /\
  (forall resp, completion run = Returns resp -> node_submissions (trace run) = 1).
Proof.
  unfold transact.
  destruct (web3SigningCredential req) as [m | key id | | t].
  - pose proof (transactMnemonicString_counts P req feed) as (_ & Hs & Hd & _ & Hr).
    auto.
  - destruct (transactCactusKeychainRef_shape P req feed)
      as [(e & t & -> & _ & Hs & Hd) | (s & id' & key' & Ht & Hc)].
    + cbn. rewrite Hs, Hd. repeat split; (lia || discriminate).
    + cbn zeta. rewrite Ht, Hc. cbn [node_submissions signer_derivations].
      pose proof (transactMnemonicString_counts P
                    (MkRunRequest (MnemonicString s) (transactionConfig req)) feed)
        as (_ & Hs & Hd & _ & Hr).
      auto.
  - destruct (truthy_string _); [|cbn; repeat split; (lia || discriminate)].
    pose proof (transactSigned_counts P req raw_feed) as (Hd & Hs & _ & Hr).
    cbn zeta in *. repeat split; [exact Hs | lia |].
    intros resp Hresp. rewrite Hresp in Hr. apply Hr.
  - cbn. repeat split; (lia || discriminate).
Qed.

(** X2.  [transact] increments the transaction counter only on the
    pre-signed path, once, when that path returns a response; the mnemonic
    and keychain paths never touch the counter, whether they succeed or
    not. *)
Theorem transact_counts_pre_signed_only `{ChainClient}
    (P : Plugin) (req : RunTransactionRequest)
    (feed : list SubmittableResult) (raw_feed : list ExtrinsicStatus) :
  counter_increments (trace (transact P req feed raw_feed)) =
    match web3SigningCredential req, completion (transact P req feed raw_feed) with
    | NoneCredential, Returns _ => 1
    | _, _ => 0
    end.
Proof.
  unfold transact.
  destruct (web3SigningCredential req) as [m | key id | | t].
  - pose proof (transactMnemonicString_counts P req feed) as (Hc & _).
    cbn zeta in Hc. rewrite Hc.
    now destruct (completion (transactMnemonicString P req feed)).
  - assert (Hzero :
      counter_increments (trace (transactCactusKeychainRef P req feed)) = 0).
    { destruct (transactCactusKeychainRef_shape P req feed)
        as [(e & t & -> & Hc & _) | (s & id' & key' & Ht & _)].
      - exact Hc.
      - rewrite Ht. cbn [counter_increments].
        apply (transactMnemonicString_counts P
                 (MkRunRequest (MnemonicString s) (transactionConfig req)) feed). }
    rewrite Hzero.
    now destruct (completion (transactCactusKeychainRef P req feed)).
  - destruct (truthy_string _); [|reflexivity].
    pose proof (transactSigned_counts P req raw_feed) as (_ & _ & _ & Hr).
    cbn zeta in Hr. destruct (completion (transactSigned P req raw_feed));
      [apply Hr | exact Hr | exact Hr].
  - reflexivity.
Qed.

(** X3.  While the plugin is not connected, [transact] fails on every path
    without deriving a signer, without handing anything to the node and
    without touching the counter. *)
Theorem transact_offline_fails_locally `{ChainClient}
    (P : Plugin) (req : RunTransactionRequest)
    (feed : list SubmittableResult) (raw_feed : list ExtrinsicStatus) :
  api P = None ->
  let run := transact P req feed raw_feed in
  (exists e, completion run = Throws e) /\
  node_submissions (trace run) = 0 /\
  signer_derivations (trace run) = 0 /\
  counter_increments (trace run) = 0.
Proof.
  intros Hapi. unfold transact.
  assert (Hkeypair : forall req',
    transactMnemonicString P req' feed = ([], Throws not_connected)).
  { intros req'. unfold transactMnemonicString. now rewrite Hapi. }
  destruct (web3SigningCredential req) as [m | key id | | t] eqn:Hcred.
  - cbn zeta. rewrite Hkeypair. cbn. eauto.
  - cbn zeta. unfold transactCactusKeychainRef. rewrite Hcred. cbn.
    destruct (pluginRegistry P !! id) as [kc|]; [|cbn; eauto].
    unfold keychain_get. unfold_monad.
    destruct (kc !! key) as [s|]; [|cbn; eauto].
    rewrite Hkeypair. cbn. eauto.
  - destruct (truthy_string _) eqn:Htruthy; [|cbn; eauto].
    cbn zeta. unfold transactSigned. rewrite Htruthy, Hapi. cbn. eauto.
  - cbn. eauto.
Qed.

Lemma transact_offline_fails_locally_witness :
  (exists e,
     completion (@transact Fixture.typed_client Fixture.offline
                   Fixture.by_mnemonic
                   [Fixture.note Fixture.ok_events (InBlock [1%N])] [])
     = Throws e) /\
  node_submissions
    (trace (@transact Fixture.typed_client Fixture.offline Fixture.by_mnemonic
              [Fixture.note Fixture.ok_events (InBlock [1%N])] [])) = 0 /\
  signer_derivations
    (trace (@transact Fixture.typed_client Fixture.offline Fixture.by_mnemonic
              [Fixture.note Fixture.ok_events (InBlock [1%N])] [])) = 0 /\
  counter_increments
    (trace (@transact Fixture.typed_client Fixture.offline Fixture.by_mnemonic
              [Fixture.note Fixture.ok_events (InBlock [1%N])] [])) = 0.
Proof.
  apply (@transact_offline_fails_locally Fixture.typed_client Fixture.offline
           Fixture.by_mnemonic
           [Fixture.note Fixture.ok_events (InBlock [1%N])] []).
  reflexivity.
Defined.

(** ** What reaches the node on the pre-signed path *)

(** The subscription lists nothing but the exceptions of its callback. *)
Lemma deliver_trace_elems {N T} (b : bool) (cb : N -> CallbackRun T)
    (ns : list N) (p : PromiseState T) (x : Effect) :
  x ∈ (deliver b cb ns p).2 -> exists e, x = CallbackThrew e.
Proof.
  revert p. induction ns as [|n ns IH]; intros p; simpl.
  - intros Hx. inversion Hx.
  - destruct (threw (cb n)) as [e|]; [|apply IH].
    destruct b.
    + simpl. intros Hx. apply list_elem_of_singleton in Hx. eauto.
    + specialize (IH (apply_run p (cb n))).
      destruct (deliver false cb ns (apply_run p (cb n))) as [q t]. simpl in *.
      intros Hx. apply elem_of_cons in Hx as [-> | Hx]; eauto.
Qed.

(** X4.  Whatever [transactSigned] submits to the node is the payload of the
    request, on a connected plugin, after it was rehydrated and its signature
    was found non-empty and valid hexadecimal. *)
Theorem transactSigned_submits_checked_payload `{ChainClient}
    (P : Plugin) (req : RunTransactionRequest) (feed : list ExtrinsicStatus)
    (tx : string) :
  SubmitAndWatchExtrinsic tx ∈ trace (transactSigned P req feed) ->
  transferSubmittable (transactionConfig req) = Some tx /\
  is_Some (api P) /\
  exists ext,
    api_tx tx = inl ext /\
    signature_toHex ext <> EmptyString /\
    isHex (signature_toHex ext) = true.
Proof.
  unfold transactSigned.
  destruct (transferSubmittable (transactionConfig req)) as [signedTx|] eqn:Hsub;
    [|cbn; intros Hx; inversion Hx].
  destruct (negb (truthy_string (Some signedTx))); [cbn; intros Hx; inversion Hx|].
  change (default EmptyString (Some signedTx)) with signedTx.
  destruct (api P) as [chain|]; [|cbn; intros Hx; inversion Hx].
  unfold_monad.
  destruct (api_tx signedTx) as [ext|] eqn:Htx; [|cbn; intros Hx; inversion Hx].
  cbn -[truthy_string isHex deliver signed_callback String.append].
  destruct (truthy_string (Some (signature_toHex ext))) eqn:Hsig;
    [|cbn; intros Hx; inversion Hx].
  destruct (isHex (signature_toHex ext)) eqn:Hhex;
    [|cbn; intros Hx; inversion Hx].
  cbn -[deliver signed_callback String.append].
  pose proof (deliver_trace_elems stop_on_throw signed_callback feed Pending)
    as Helems.
  destruct (deliver stop_on_throw signed_callback feed Pending) as [[|r|e] t];
    cbn -[String.append] in *; intros Hx;
    apply elem_of_cons in Hx as [Heq | Hx];
    try (injection Heq as ->;
         repeat split; [eauto | exists ext; repeat split; try assumption;
                                intros Hempty; rewrite Hempty in Hsig;
                                discriminate]);
    exfalso;
    rewrite ?app_nil_r in Hx;
    try (apply elem_of_app in Hx as [Hx | Hx];
         [|apply list_elem_of_singleton in Hx; discriminate]);
    destruct (Helems _ Hx) as [e' He']; discriminate.
Qed.

Lemma transactSigned_submits_checked_payload_witness :
  transferSubmittable (transactionConfig (Fixture.pre_signed "0xabcd"))
    = Some "0xabcd" /\
  is_Some (api Fixture.plugin) /\
  exists ext,
    @api_tx Fixture.typed_client "0xabcd" = inl ext /\
    signature_toHex ext <> EmptyString /\
    isHex (signature_toHex ext) = true.
Proof.
  apply (@transactSigned_submits_checked_payload Fixture.typed_client
           Fixture.plugin (Fixture.pre_signed "0xabcd") [Ready; InBlock [1%N]]).
  vm_compute. constructor.
Defined.

(** ** The event bridge of a deployment *)

Section DeployBridge.
Context `{ChainClient}.

Lemma deploy_callback_not_decisive (r : SubmittableResult) :
  deploy_decisive r = false -> deploy_callback r = quiet.
Proof.
  unfold deploy_decisive, deploy_callback. now intros ->.
Qed.

(** Once the signer and the instantiate call exist, the deployment ends as
    the bridging promise ends. *)
Lemma deployContract_run (P : Plugin) (req : DeployContractInkRequest)
    (feed : list SubmittableResult) chain t0 mnemonic ctor others pair :
  api P = Some chain ->
  deploy_mnemonic P (dc_web3SigningCredential req) = (t0, Returns mnemonic) ->
  parseAbi (dc_metadata req) = inl (ctor :: others) ->
  createFromUri mnemonic = inl pair ->
  (forall call, tx_truthy call = true) ->
  completion (deployContract P req feed) =
    match (deliver stop_on_throw deploy_callback feed Pending).1 with
    | Fulfilled (success, address) => Returns (MkDeployResponse success address)
    | Rejected e => Throws (deploy_failure e)
    | Pending => Hangs
    end.
Proof.
  intros Hapi Hmn Habi Hpair Htx.
  unfold deployContract. rewrite Hapi. unfold_monad. rewrite Hmn, Habi.
  cbn -[deliver deploy_callback String.append constructor_args].
  rewrite Hpair.
  cbn -[deliver deploy_callback String.append constructor_args].
  rewrite Htx.
  destruct (deliver stop_on_throw deploy_callback feed Pending)
    as [[|[ok address]|e] t];
    cbn -[String.append constructor_args]; try reflexivity.
  destruct (truthy_string address); reflexivity.
Qed.

End DeployBridge.

(** X5.  In a deployment the first notification whose status is [InBlock] or
    [Finalized] decides, whatever precedes or follows it: with a dispatch
    error the caller gets the deployment-failed error with the fixed reason
    ["deployment not successful"], whatever the dispatch error is; without
    one and with an instantiated contract the caller gets [success = true]
    and the address of that contract. *)
Theorem deployContract_first_decisive `{ChainClient}
    (P : Plugin) (req : DeployContractInkRequest)
    (pre post : list SubmittableResult) (r : SubmittableResult)
    chain t0 mnemonic ctor others pair :
  api P = Some chain ->
  deploy_mnemonic P (dc_web3SigningCredential req) = (t0, Returns mnemonic) ->
  parseAbi (dc_metadata req) = inl (ctor :: others) ->
  createFromUri mnemonic = inl pair ->
  (forall call, tx_truthy call = true) ->
  Forall (fun n => deploy_decisive n = false) pre ->
  deploy_decisive r = true ->
  (forall d, dispatchError r = Some d ->
     completion (deployContract P req (pre ++ r :: post)) =
       Throws (deploy_failure (ThrownString "deployment not successful"))) /\
  (forall address, dispatchError r = None -> contract r = Some address ->
     completion (deployContract P req (pre ++ r :: post)) =
       Returns (MkDeployResponse true (Some address))).
Proof.
  intros Hapi Hmn Habi Hpair Htx Hpre Hr.
  rewrite (deployContract_run P req _ chain t0 mnemonic ctor others pair
             Hapi Hmn Habi Hpair Htx).
  rewrite deliver_quiet_prefix
    by (eapply Forall_impl; [exact Hpre | apply deploy_callback_not_decisive]).
  unfold deploy_decisive in Hr. split.
  - intros d Hd.
    erewrite (deliver_decisive _ _ r post
                (Reject (ThrownString "deployment not successful")));
      [reflexivity|].
    unfold deploy_callback. rewrite Hr, Hd. now destruct d.
  - intros address Hd Hc.
    erewrite (deliver_decisive _ _ r post (Resolve (true, Some address)));
      [reflexivity|].
    unfold deploy_callback. now rewrite Hr, Hd, Hc.
Qed.

Lemma deployContract_first_decisive_witness :
  completion
    (@deployContract Fixture.typed_client Fixture.plugin
       (Fixture.deploy (MnemonicString "//Alice") (Some [JsBool false]))
       ([Fixture.instantiated Ready "5Contract"]
        ++ Sample.dispatch_failed (Finalized [1%N])
        :: [Fixture.instantiated (InBlock [2%N]) "5Contract"]))
  = Throws (ThrownError
      "PluginLedgerConnectorPolkadot#deployContract() The contract upload and deployment failed. InnerException: deployment not successful").
Proof.
  destruct (@deployContract_first_decisive Fixture.typed_client Fixture.plugin
              (Fixture.deploy (MnemonicString "//Alice") (Some [JsBool false]))
              [Fixture.instantiated Ready "5Contract"]
              [Fixture.instantiated (InBlock [2%N]) "5Contract"]
              (Sample.dispatch_failed (Finalized [1%N]))
              Fixture.chain [] (Some "//Alice")
              (MkConstructor "new") [MkConstructor "default"] (MkPair "//Alice"))
    as [Hfailed _].
  - reflexivity.
  - reflexivity.
  - reflexivity.
  - reflexivity.
  - reflexivity.
  - repeat constructor.
  - reflexivity.
  - exact (Hfailed (OtherDispatchError "BadOrigin") eq_refl).
Defined.

(** X6.  A deployment for which the node never reports [InBlock] or
    [Finalized] never completes: the caller's call stays pending. *)
Theorem deployContract_never_decisive_hangs `{ChainClient}
    (P : Plugin) (req : DeployContractInkRequest)
    (feed : list SubmittableResult) chain t0 mnemonic ctor others pair :
  api P = Some chain ->
  deploy_mnemonic P (dc_web3SigningCredential req) = (t0, Returns mnemonic) ->
  parseAbi (dc_metadata req) = inl (ctor :: others) ->
  createFromUri mnemonic = inl pair ->
  (forall call, tx_truthy call = true) ->
  Forall (fun n => deploy_decisive n = false) feed ->
  completion (deployContract P req feed) = Hangs.
Proof.
  intros Hapi Hmn Habi Hpair Htx Hfeed.
  rewrite (deployContract_run P req _ chain t0 mnemonic ctor others pair
             Hapi Hmn Habi Hpair Htx).
  rewrite <- (app_nil_r feed).
  rewrite deliver_quiet_prefix
    by (eapply Forall_impl; [exact Hfeed | apply deploy_callback_not_decisive]).
  reflexivity.
Qed.

Lemma deployContract_never_decisive_hangs_witness :
  completion
    (@deployContract Fixture.typed_client Fixture.plugin
       (Fixture.deploy (MnemonicString "//Alice") None)
       [Fixture.instantiated Ready "5Contract"; Sample.dispatch_failed Dropped])
  = Hangs.
Proof.
  apply (@deployContract_never_decisive_hangs Fixture.typed_client Fixture.plugin
           (Fixture.deploy (MnemonicString "//Alice") None)
           [Fixture.instantiated Ready "5Contract"; Sample.dispatch_failed Dropped]
           Fixture.chain [] (Some "//Alice")
           (MkConstructor "new") [MkConstructor "default"] (MkPair "//Alice"));
    try reflexivity.
  repeat constructor.
Defined.

(** ** Credentials of a deployment *)

(** X7.  A deployment with a keychain reference whose keychain holds the
    secret [s] ends exactly as the same deployment with [s] as mnemonic, and
    makes the same collaborator calls behind the one keychain lookup.  When
    the keychain is not registered, the deployment fails with an error before
    any keychain lookup, signer derivation or submission. *)
Theorem deployContract_keychain_as_mnemonic `{ChainClient}
    (P : Plugin) (req : DeployContractInkRequest) (feed : list SubmittableResult)
    (entryKey keychainId : string) chain :
  api P = Some chain ->
  dc_web3SigningCredential req = CactusKeychainRef entryKey keychainId ->
  match pluginRegistry P !! keychainId with
  | Some keychain =>
      forall s, keychain !! entryKey = Some s ->
        let by_mnemonic :=
          deployContract P (with_credential req (MnemonicString s)) feed in
        completion (deployContract P req feed) = completion by_mnemonic /\
        trace (deployContract P req feed) =
          KeychainGet keychainId entryKey :: trace by_mnemonic
  | None => exists e, deployContract P req feed = ([], Throws e)
  end.
Proof.
  intros Hapi Hcred. unfold deployContract. rewrite Hapi, Hcred.
  cbn [with_credential dc_web3SigningCredential dc_metadata dc_gasLimit
       dc_storageDepositLimit dc_salt dc_balance dc_wasm dc_params
       deploy_mnemonic].
  destruct (pluginRegistry P !! keychainId) as [keychain|];
    [|eexists; reflexivity].
  intros s Hs. unfold keychain_get. rewrite Hs. unfold_monad.
  cbn -[deliver deploy_callback String.append constructor_args].
  destruct (parseAbi (dc_metadata req)) as [ctors|e]; [|split; reflexivity].
  match goal with
  | |- context [let '(t', c) := ?rest in _] => destruct rest as [t c]
  end.
  split; reflexivity.
Qed.

Lemma deployContract_keychain_as_mnemonic_witness :
  completion
    (@deployContract Fixture.typed_client Fixture.plugin
       (Fixture.deploy (CactusKeychainRef "entry" "kc1") (Some [JsBool false]))
       [Fixture.instantiated (InBlock [1%N]) "5Contract"])
  = completion
      (@deployContract Fixture.typed_client Fixture.plugin
         (with_credential
            (Fixture.deploy (CactusKeychainRef "entry" "kc1") (Some [JsBool false]))
            (MnemonicString "//Alice"))
         [Fixture.instantiated (InBlock [1%N]) "5Contract"]).
Proof.
  pose proof (@deployContract_keychain_as_mnemonic Fixture.typed_client
                Fixture.plugin
                (Fixture.deploy (CactusKeychainRef "entry" "kc1")
                   (Some [JsBool false]))
                [Fixture.instantiated (InBlock [1%N]) "5Contract"]
                "entry" "kc1" Fixture.chain eq_refl eq_refl) as Hc.
  change (pluginRegistry Fixture.plugin !! "kc1")
    with (Some ({[ "entry" := "//Alice" ]} : gmap string string)) in Hc.
  exact (proj1 (Hc "//Alice" eq_refl)).
Defined.

(** ** Responses of a deployment *)

Section DeployResponses.
Context `{ChainClient}.

Lemma deploy_callback_resolves (n : SubmittableResult) (v : bool * option string) :
  settled (deploy_callback n) = Some (Resolve v) ->
  exists address, contract n = Some address /\ v = (true, Some address).
Proof.
  unfold deploy_callback.
  destruct (isInBlock (status n) || isFinalized (status n)); [|discriminate].
  destruct (dispatchError n) as [[m|text]|]; try discriminate.
  destruct (contract n) as [address|]; [|discriminate].
  simpl. intros Hs. injection Hs as <-. eauto.
Qed.

Lemma deploy_mnemonic_local (P : Plugin) (c : Web3SigningCredential) :
  node_submissions (trace (deploy_mnemonic P c)) = 0 /\
  signer_derivations (trace (deploy_mnemonic P c)) = 0.
Proof.
  unfold deploy_mnemonic. destruct c as [m | key id | | t]; try (now split).
  destruct (pluginRegistry P !! id) as [kc|]; [|now split].
  unfold keychain_get. unfold_monad. destruct (kc !! key); now split.
Qed.

End DeployResponses.

(** X8.  A response returned by [deployContract] has one of two shapes:
    [success = true] with the address of a contract that a notification
    carried, after exactly one instantiate call was handed to the node; or
    [success = false] without an address, after nothing was handed to the
    node.  It never reports success without an address. *)
Theorem deployContract_response_shape `{ChainClient}
    (P : Plugin) (req : DeployContractInkRequest) (feed : list SubmittableResult)
    (resp : DeployContractInkResponse) :
  completion (deployContract P req feed) = Returns resp ->
  (exists n address,
     n ∈ feed /\ contract n = Some address /\
     resp = MkDeployResponse true (Some address) /\
     node_submissions (trace (deployContract P req feed)) = 1) \/
  (resp = MkDeployResponse false None /\
   node_submissions (trace (deployContract P req feed)) = 0).
Proof.
  unfold deployContract. destruct (api P); [|discriminate].
  pose proof (deploy_mnemonic_local P (dc_web3SigningCredential req))
    as [Hmn _].
  unfold_monad.
  destruct (deploy_mnemonic P (dc_web3SigningCredential req)) as [t0 [m| |]];
    simpl in Hmn; [|discriminate|discriminate].
  destruct (parseAbi (dc_metadata req)) as [[|ctor others]|];
    cbn -[deliver deploy_callback String.append constructor_args];
    try discriminate.
  - destruct (createFromUri m); discriminate.
  - destruct (createFromUri m);
      cbn -[deliver deploy_callback String.append constructor_args];
      [|discriminate].
    destruct (tx_truthy _);
      cbn -[deliver deploy_callback String.append constructor_args].
    + pose proof (deliver_trace_local stop_on_throw deploy_callback feed Pending)
        as [Hsub _].
      pose proof (deliver_fulfilled_inv stop_on_throw deploy_callback feed Pending)
        as Hinv.
      destruct (deliver stop_on_throw deploy_callback feed Pending)
        as [[|[ok address]|e] t];
        cbn -[String.append constructor_args truthy_string] in *;
        try discriminate.
      destruct (Hinv _ eq_refl) as [Hp | (n & Hn & Hs)]; [discriminate|].
      destruct (deploy_callback_resolves n _ Hs) as (a & Hc & Hv).
      injection Hv as -> ->.
      intros Hresp. left. exists n, a.
      repeat split; try assumption.
      * destruct (truthy_string (Some a));
          cbn -[String.append constructor_args] in Hresp; congruence.
      * destruct (truthy_string (Some a));
          cbn -[String.append constructor_args];
          rewrite ?node_submissions_app, Hmn; cbn [node_submissions];
          rewrite ?node_submissions_app, Hsub; reflexivity.
    + intros Hresp. right. split; [congruence|].
      rewrite ?node_submissions_app, Hmn. reflexivity.
Qed.

Lemma deployContract_response_shape_witness :
  (exists n address,
     n ∈ [Fixture.instantiated Ready "5Other";
          Fixture.instantiated (Finalized [1%N]) "5Contract"] /\
     contract n = Some address /\
     MkDeployResponse true (Some "5Contract")
       = MkDeployResponse true (Some address) /\
     node_submissions
       (trace (@deployContract Fixture.typed_client Fixture.plugin
                 (Fixture.deploy (MnemonicString "//Alice") None)
                 [Fixture.instantiated Ready "5Other";
                  Fixture.instantiated (Finalized [1%N]) "5Contract"])) = 1) \/
  (MkDeployResponse true (Some "5Contract") = MkDeployResponse false None /\
   node_submissions
     (trace (@deployContract Fixture.typed_client Fixture.plugin
               (Fixture.deploy (MnemonicString "//Alice") None)
               [Fixture.instantiated Ready "5Other";
                Fixture.instantiated (Finalized [1%N]) "5Contract"])) = 0).
Proof.
  apply (@deployContract_response_shape Fixture.typed_client Fixture.plugin
           (Fixture.deploy (MnemonicString "//Alice") None)
           [Fixture.instantiated Ready "5Other";
            Fixture.instantiated (Finalized [1%N]) "5Contract"]
           (MkDeployResponse true (Some "5Contract"))).
  reflexivity.
Defined.

(** ** Building and signing without submitting *)

(** X9.  The raw transaction that [rawTransaction] returns is the rendering
    of the very call that [transactMnemonicString] hands to the signer for
    the same recipient and value; [rawTransaction] itself calls no
    collaborator. *)
Theorem rawTransaction_is_the_submitted_call `{ChainClient} `{SigningLibrary}
    (P : Plugin) (raw : RawTransactionRequest) (req : RunTransactionRequest)
    (feed : list SubmittableResult) (resp : RawTransactionResponse) pair :
  to (transactionConfig req) = raw_to raw ->
  value (transactionConfig req) = raw_value raw ->
  createFromUri (credential_mnemonic (web3SigningCredential req)) = inl pair ->
  completion (rawTransaction P raw) = Returns resp ->
  trace (rawTransaction P raw) = [] /\
  exists call,
    submitted_calls (trace (transactMnemonicString P req feed)) = [call] /\
    raw_rawTransaction resp = call_toHex call /\
    raw_succeeded resp = true.
Proof.
  intros Hto Hvalue Hpair. unfold rawTransaction, transactMnemonicString.
  destruct (api P); [|discriminate]. unfold_monad. rewrite Hpair, Hto, Hvalue.
  destruct (balances_transfer (raw_to raw) (raw_value raw)) as [call|];
    [|discriminate].
  cbn -[deliver mnemonic_callback String.append].
  intros Hresp. injection Hresp as <-. split; [reflexivity|].
  exists call.
  pose proof (deliver_trace stop_on_throw mnemonic_callback feed Pending)
    as [Hcalls _].
  destruct (deliver stop_on_throw mnemonic_callback feed Pending) as [[|r|e] t];
    cbn -[String.append] in *; rewrite ?app_nil_r, Hcalls; now repeat split.
Qed.

Lemma rawTransaction_is_the_submitted_call_witness :
  trace (@rawTransaction Fixture.typed_client Sample.library Fixture.plugin
           (MkRawRequest (Some "5Bob") (Some 30%Z))) = [] /\
  exists call,
    submitted_calls
      (trace (@transactMnemonicString Fixture.typed_client Fixture.plugin
                Fixture.by_mnemonic [Fixture.note [] Ready])) = [call] /\
    raw_rawTransaction (MkRawResponse "0x0403" true "obtainRawTransaction")
      = @call_toHex Sample.library call /\
    raw_succeeded (MkRawResponse "0x0403" true "obtainRawTransaction") = true.
Proof.
  apply (@rawTransaction_is_the_submitted_call Fixture.typed_client
           Sample.library Fixture.plugin
           (MkRawRequest (Some "5Bob") (Some 30%Z)) Fixture.by_mnemonic
           [Fixture.note [] Ready]
           (MkRawResponse "0x0403" true "obtainRawTransaction")
           (MkPair "//Alice")).
  - reflexivity.
  - reflexivity.
  - reflexivity.
  - reflexivity.
Defined.

(** X10.  [signTransaction] signs without broadcasting: for every request it
    completes, hands nothing to the node and leaves the counter untouched.
    Offline it throws the not-connected error before deriving a signer; any
    later failure (signer, rehydration, signing) reaches the caller wrapped
    as a signing failure; a response always has [success = true]. *)
Theorem signTransaction_signs_only `{ChainClient} `{SigningLibrary}
    (P : Plugin) (req : SignRawTransactionRequest) :
  let run := signTransaction P req in
  node_submissions (trace run) = 0 /\
  counter_increments (trace run) = 0 /\
  match completion run with
  | Returns resp => is_Some (api P) /\ sign_success resp = true
  | Throws e =>
      (api P = None /\ e = not_connected /\ trace run = []) \/
      (is_Some (api P) /\
       exists inner,
         e = ThrownError
               (className +:+ "#signTx()" +:+ " signing raw transaction has failed. "
                +:+ "InnerException: " +:+ render inner))
  | Hangs => False
  end.
Proof.
  unfold signTransaction.
  destruct (api P) as [chain|]; [|cbn; repeat split; left; now repeat split].
  unfold_monad.
  destruct (createFromUri (sign_mnemonic req)) as [pair|e1];
    cbn -[String.append];
    [|repeat split; right; split; eauto].
  destruct (api_tx (sign_rawTransaction req)) as [ext|e2];
    cbn -[String.append];
    [|repeat split; right; split; eauto].
  destruct (signAsync ext pair (sign_signingOptions req)) as [signed|e3];
    cbn -[String.append];
    [|repeat split; right; split; eauto].
  repeat split. eauto.
Qed.

(** ** Storage access *)

(** X11.  A response of [readStorage] has one of two shapes: on a connected
    plugin [success = true] with the hash that [send()] yielded, after one
    increment of the counter; on a plugin that is not connected
    [success = false] without a hash and without an increment.  Being
    offline is not an error of this operation. *)
Theorem readStorage_response_shape
    (P : Plugin) (req : StorageRequest) (resp : StorageResponse) :
  completion (readStorage P req) = Returns resp ->
  (is_Some (api P) /\
   exists hash,
     st_send req = Returns hash /\
     resp = MkStorageResponse true (Some hash) /\
     counter_increments (trace (readStorage P req)) = 1) \/
  (api P = None /\
   resp = MkStorageResponse false None /\
   trace (readStorage P req) = []).
Proof.
  unfold readStorage.
  destruct (negb (truthy_string _)); [discriminate|].
  destruct (negb (isHex _)); [discriminate|].
  unfold_monad.
  destruct (api P) as [chain|].
  - destruct (st_send req) as [hash| |] eqn:Hsend; cbn -[String.append];
      try discriminate.
    intros Hresp. injection Hresp as <-. left. split; [eauto|].
    exists hash. now repeat split.
  - cbn. intros Hresp. injection Hresp as <-. right. now repeat split.
Qed.

Lemma readStorage_response_shape_witness :
  (is_Some (api Fixture.plugin) /\
   exists hash,
     st_send Sample.signed_storage = Returns hash /\
     MkStorageResponse true (Some [5%N]) = MkStorageResponse true (Some hash) /\
     counter_increments (trace (readStorage Fixture.plugin Sample.signed_storage))
       = 1) \/
  (api Fixture.plugin = None /\
   MkStorageResponse true (Some [5%N]) = MkStorageResponse false None /\
   trace (readStorage Fixture.plugin Sample.signed_storage) = []).
Proof.
  apply (readStorage_response_shape Fixture.plugin Sample.signed_storage
           (MkStorageResponse true (Some [5%N]))).
  reflexivity.
Defined.

(** X12.  [writeStorage] and [readStorage] are the same operation up to the
    text of their errors: on the same plugin and request they make the same
    collaborator calls, return the same response, and fail or stay pending
    together. *)
Theorem writeStorage_like_readStorage (P : Plugin) (req : StorageRequest) :
  trace (writeStorage P req) = trace (readStorage P req) /\
  match completion (writeStorage P req), completion (readStorage P req) with
  | Returns written, Returns read => written = read
  | Throws _, Throws _ => True
  | Hangs, Hangs => True
  | _, _ => False
  end.
Proof.
  unfold writeStorage, readStorage.
  destruct (negb (truthy_string _)); [now split|].
  destruct (negb (isHex _)); [now split|].
  unfold_monad.
  destruct (api P) as [chain|]; [|now split].
  destruct (st_send req) as [hash|e|]; now split.
Qed.

(** ** The REST handler of run-transaction *)

Section Handler.
Context `{ChainClient}.

(** Every response of [transact] reports success with two rendered hashes. *)
Lemma transact_returns_shape (P : Plugin) (req : RunTransactionRequest)
    (feed : list SubmittableResult) (raw_feed : list ExtrinsicStatus)
    (resp : RunTransactionResponse) :
  completion (transact P req feed raw_feed) = Returns resp ->
  exists h1 h2, resp = MkRunResponse true (Some (toHex h1)) (Some (toHex h2)).
Proof.
  intros Hc.
  assert (Hkeypair : forall req',
    completion (transactMnemonicString P req' feed) = Returns resp ->
    exists h1 h2, resp = MkRunResponse true (Some (toHex h1)) (Some (toHex h2))).
  { intros req' Hr.
    destruct (transactMnemonicString_returns P req' feed resp Hr) as (r & Hd & ->).
    destruct (deliver_fulfilled_inv _ _ _ _ _ Hd) as [Hp | (n & _ & Hn)];
      [discriminate|].
    destruct (mnemonic_callback_resolves n r Hn) as (h1 & h2 & ->). eauto. }
  unfold transact in Hc.
  destruct (web3SigningCredential req) as [m | key id | | t] eqn:Hcred.
  - now apply (Hkeypair req).
  - unfold transactCactusKeychainRef in Hc. rewrite Hcred in Hc. simpl in Hc.
    destruct (pluginRegistry P !! id) as [keychain|]; [|discriminate].
    apply completion_after_keychain_get in Hc as (secret & _ & Hc).
    now apply (Hkeypair _ Hc).
  - destruct (truthy_string _); [|discriminate].
    destruct (transactSigned_returns P req raw_feed resp Hc) as (r & Hd & ->).
    destruct (deliver_fulfilled_inv _ _ _ _ _ Hd) as [Hp | (n & _ & Hn)];
      [discriminate|].
    destruct (signed_callback_resolves n r Hn) as (h1 & h2 & ->). eauto.
  - discriminate.
Qed.

End Handler.

(** X13.  The handler of the run-transaction endpoint answers once
    [transact] has completed and never before: status 200 with the response
    of [transact], which then has [success = true] and both hashes, or
    status 500 with the message ["Internal Server Error"] when [transact]
    threw.  It makes no collaborator call of its own. *)
Theorem handleRequest_answers `{ChainClient}
    (stack : JsThrown -> option string)
    (P : Plugin) (reqBody : RunTransactionRequest)
    (feed : list SubmittableResult) (raw_feed : list ExtrinsicStatus) :
  let run := transact P reqBody feed raw_feed in
  let answer := handleRequest stack P reqBody feed raw_feed in
  answer.1 = trace run /\
  match answer.2 with
  | None => completion run = Hangs
  | Some (MkHttp code (JsonResponse r)) =>
      code = 200 /\ completion run = Returns r /\
      exists h1 h2, r = MkRunResponse true (Some (toHex h1)) (Some (toHex h2))
  | Some (MkHttp code (JsonError message error)) =>
      code = 500 /\ message = "Internal Server Error" /\
      exists ex, completion run = Throws ex /\ error = stack_or_message stack ex
  end.
Proof.
  cbn zeta. unfold handleRequest.
  pose proof (transact_returns_shape P reqBody feed raw_feed) as Hshape.
  destruct (transact P reqBody feed raw_feed) as [t [r|ex|]]; cbn in *.
  - repeat split. now apply Hshape.
  - repeat split. eauto.
  - now split.
Qed.

(** ** Notifications that make the deployment callback fail *)

(** While the subscription survives the exceptions of its callback,
    notifications on which the callback does not settle are skipped. *)
Lemma deliver_unsettling_prefix {N T} (cb : N -> CallbackRun T)
    (pre rest : list N) (p : PromiseState T) :
  Forall (fun n => settled (cb n) = None) pre ->
  (deliver false cb (pre ++ rest) p).1 = (deliver false cb rest p).1.
Proof.
  induction 1 as [|n pre Hn _ IH]; simpl; [reflexivity|].
  unfold apply_run. rewrite Hn.
  destruct (threw (cb n)); [|exact IH].
  destruct (deliver false cb (pre ++ rest) p). exact IH.
Qed.

(** X14.  A decisive notification that carries neither a dispatch error nor
    an instantiated contract makes the deployment callback throw without
    settling.  Where the subscription survives that, such notifications are
    skipped like the non-decisive ones, and the first decisive notification
    with a contract resolves the deployment with its address. *)
Theorem deployContract_skips_contractless `{ChainClient}
    (P : Plugin) (req : DeployContractInkRequest)
    (pre post : list SubmittableResult) (r : SubmittableResult)
    chain t0 mnemonic ctor others pair address :
  api P = Some chain ->
  deploy_mnemonic P (dc_web3SigningCredential req) = (t0, Returns mnemonic) ->
  parseAbi (dc_metadata req) = inl (ctor :: others) ->
  createFromUri mnemonic = inl pair ->
  (forall call, tx_truthy call = true) ->
  stop_on_throw = false ->
  Forall (fun n => deploy_decisive n = false \/
                   (dispatchError n = None /\ contract n = None)) pre ->
  deploy_decisive r = true ->
  dispatchError r = None ->
  contract r = Some address ->
  completion (deployContract P req (pre ++ r :: post)) =
    Returns (MkDeployResponse true (Some address)).
Proof.
  intros Hapi Hmn Habi Hpair Htx Hstop Hpre Hr Hd Hc.
  rewrite (deployContract_run P req _ chain t0 mnemonic ctor others pair
             Hapi Hmn Habi Hpair Htx).
  rewrite Hstop, deliver_unsettling_prefix.
  - erewrite (deliver_decisive _ _ r post (Resolve (true, Some address)));
      [reflexivity|].
    unfold deploy_decisive in Hr. unfold deploy_callback.
    rewrite Hr, Hd, Hc. reflexivity.
  - eapply Forall_impl; [exact Hpre|].
    intros n [Hn | [Hnd Hnc]]; unfold deploy_callback.
    + unfold deploy_decisive in Hn. rewrite Hn. reflexivity.
    + rewrite Hnd, Hnc.
      destruct (isInBlock (status n) || isFinalized (status n)); reflexivity.
Qed.

Lemma deployContract_skips_contractless_witness :
  completion
    (@deployContract Fixture.typed_client Fixture.plugin
       (Fixture.deploy (MnemonicString "//Alice") None)
       ([Fixture.note [] Ready; Fixture.note [] (InBlock [1%N])]
        ++ Fixture.instantiated (Finalized [1%N]) "5Contract" :: []))
  = Returns (MkDeployResponse true (Some "5Contract")).
Proof.
  apply (@deployContract_skips_contractless Fixture.typed_client Fixture.plugin
           (Fixture.deploy (MnemonicString "//Alice") None)
           [Fixture.note [] Ready; Fixture.note [] (InBlock [1%N])] []
           (Fixture.instantiated (Finalized [1%N]) "5Contract")
           Fixture.chain [] (Some "//Alice")
           (MkConstructor "new") [MkConstructor "default"] (MkPair "//Alice")
           "5Contract").
  - reflexivity.
  - reflexivity.
  - reflexivity.
  - reflexivity.
  - reflexivity.
  - reflexivity.
  - constructor; [left; reflexivity|].
    constructor; [right; split; reflexivity|].
    constructor.
  - reflexivity.
  - reflexivity.
  - reflexivity.
Defined.

(** ** Operations on a plugin that is not connected *)

(** X15.  On a plugin that is not connected, the keypair path, a deployment,
    [rawTransaction], [signTransaction] and the pre-signed path (given a
    payload) all throw the same not-connected error, unwrapped and before any
    collaborator call; [obtainTransactionInformation] throws it wrapped in
    its own failure text. *)
Theorem offline_operations_fail_first `{ChainClient} `{SigningLibrary}
    (P : Plugin) :
  api P = None ->
  (forall req feed,
     transactMnemonicString P req feed = ([], Throws not_connected)) /\
  (forall req feed, deployContract P req feed = ([], Throws not_connected)) /\
  (forall req, rawTransaction P req = ([], Throws not_connected)) /\
  (forall req, signTransaction P req = ([], Throws not_connected)) /\
  (forall req feed,
     truthy_string (transferSubmittable (transactionConfig req)) = true ->
     transactSigned P req feed = ([], Throws not_connected)) /\
  (forall req,
     obtainTransactionInformation P req =
       ([], Throws (ThrownError
              (className +:+ "#obtainTxInformation()"
               +:+ " Obtaining info for this transaction has failed. "
               +:+ "InnerException: "
               +:+ "Error: The operation has failed because the api is not connected to Substrate Node")))).
Proof.
  intros Hapi. repeat split; intros.
  - unfold transactMnemonicString. now rewrite Hapi.
  - unfold deployContract. now rewrite Hapi.
  - unfold rawTransaction. now rewrite Hapi.
  - unfold signTransaction. now rewrite Hapi.
  - unfold transactSigned.
    match goal with Ht : truthy_string _ = true |- _ => rewrite Ht end.
    now rewrite Hapi.
  - unfold obtainTransactionInformation. now rewrite Hapi.
Qed.

Lemma offline_operations_fail_first_witness :
  @transactSigned Fixture.typed_client Fixture.offline
    (Fixture.pre_signed "0xabcd") [InBlock [1%N]]
  = ([], Throws (ThrownError
       "The operation has failed because the API is not connected to Substrate Node")).
Proof.
  destruct (@offline_operations_fail_first Fixture.typed_client Sample.library
              Fixture.offline eq_refl) as (_ & _ & _ & _ & Hsigned & _).
  apply Hsigned. reflexivity.
Defined.

(** ** Construction and connection of a plugin *)

(** X16.  The constructor yields a plugin exactly when the options hold a
    plugin registry, a non-empty provider URL, a non-empty instance id and a
    truthy log level if one is given (the empty name and the number 0 are
    refused), the logger accepts the level (["INFO"] when none is given), the
    provider can be created for the URL, and the metrics collection of the
    exporter starts. *)
Theorem constructor_accepts_iff
    (new_WsProvider : string -> option nat -> option JsThrown)
    (LoggerProvider_getOrCreate : LogLevelDesc -> string -> option JsThrown)
    (startMetricsCollection : Exporter -> option JsThrown)
    (opts : IPluginLedgerConnectorPolkadotOptions) :
  (exists this,
     new_PluginLedgerConnectorPolkadot new_WsProvider LoggerProvider_getOrCreate
       startMetricsCollection opts = inl this)
  <->
  is_Some (o_pluginRegistry opts) /\
  (forall level, o_logLevel opts = Some level -> truthy_level level = true) /\
  o_wsProviderUrl opts <> EmptyString /\
  o_instanceId opts <> EmptyString /\
  LoggerProvider_getOrCreate
    (match o_logLevel opts with Some level => level | None => LevelName "INFO" end)
    className = None /\
  new_WsProvider (o_wsProviderUrl opts)
    (match o_autoConnect opts with Some true => Some 1 | _ => None end) = None /\
  startMetricsCollection
    (match o_prometheusExporter opts with
     | Some exporter => exporter
     | None => NewExporter 1
     end) = None.
Proof.
  unfold new_PluginLedgerConnectorPolkadot, setProvider, check_truthy.
  destruct opts as [logLevel registry exporter url id autoConnect].
  cbn -[className].
  split.
  - intros [this Hnew].
    destruct registry as [registry|]; [|discriminate].
    assert (Hlevel : forall level, logLevel = Some level ->
                                   truthy_level level = true).
    { intros level ->. destruct (truthy_level level); [reflexivity|discriminate]. }
    destruct logLevel as [level|];
      [rewrite (Hlevel level eq_refl) in Hnew|];
      (destruct url as [|c url]; [discriminate|]);
      (destruct id as [|d id]; [discriminate|]);
      cbn -[className] in Hnew;
      (destruct (LoggerProvider_getOrCreate _ _) eqn:Hlog; [discriminate|]);
      (destruct (new_WsProvider _ _) eqn:Hws; [discriminate|]);
      (destruct (startMetricsCollection _) eqn:Hmetrics; [discriminate|]);
      repeat split; eauto; try discriminate;
      destruct autoConnect as [[|]|]; destruct exporter; assumption.
  - intros ([registry' ->] & Hlevel & Hurl & Hid & Hlog & Hws & Hmetrics).
    destruct url as [|c url]; [congruence|].
    destruct id as [|d id]; [congruence|].
    destruct logLevel as [level|];
      [rewrite (Hlevel level eq_refl)|];
      cbn -[className]; rewrite Hlog;
      destruct autoConnect as [[|]|]; destruct exporter;
      cbn -[className] in *; rewrite Hws, Hmetrics; eauto.
Qed.

(** X17.  A plugin that the constructor yields is not connected, has the
    registry and the instance id of its options and no endpoints yet: the
    keypair path and a deployment fail on it with the not-connected error.
    After a successful [createAPI] it is connected to the chain that was
    reported, with the same registry, instance id and endpoints; when the
    connection fails the caller gets ["Could not create API"] whatever the
    cause was. *)
Theorem constructed_plugin_connects_by_createAPI `{ChainClient}
    (new_WsProvider : string -> option nat -> option JsThrown)
    (LoggerProvider_getOrCreate : LogLevelDesc -> string -> option JsThrown)
    (startMetricsCollection : Exporter -> option JsThrown)
    (opts : IPluginLedgerConnectorPolkadotOptions) (this : PluginInstance) :
  new_PluginLedgerConnectorPolkadot new_WsProvider LoggerProvider_getOrCreate
    startMetricsCollection opts = inl this ->
  (api (inst_plugin this) = None /\
   o_pluginRegistry opts = Some (pluginRegistry (inst_plugin this)) /\
   getInstanceId this = o_instanceId opts /\
   getInstanceId this <> EmptyString /\
   inst_endpoints this = None) /\
  (forall req feed,
     transactMnemonicString (inst_plugin this) req feed
       = ([], Throws not_connected)) /\
  (forall req feed,
     deployContract (inst_plugin this) req feed = ([], Throws not_connected)) /\
  (forall chain,
     exists connected,
       createAPI this (Returns chain) = Returns connected /\
       api (inst_plugin connected) = Some chain /\
       pluginRegistry (inst_plugin connected) = pluginRegistry (inst_plugin this) /\
       getInstanceId connected = getInstanceId this /\
       inst_endpoints connected = inst_endpoints this) /\
  (forall cause,
     createAPI this (Throws cause) = Throws (ThrownError "Could not create API")).
Proof.
  unfold new_PluginLedgerConnectorPolkadot, setProvider, check_truthy.
  destruct opts as [logLevel registry exporter url id autoConnect]; cbn.
  destruct registry as [registry|]; [|discriminate].
  destruct (match logLevel with Some _ => _ | None => _ end); [|discriminate].
  destruct url as [|c url]; [discriminate|].
  destruct id as [|d id]; [discriminate|]. cbn.
  destruct (LoggerProvider_getOrCreate _ _); [discriminate|].
  destruct (new_WsProvider _ _); [discriminate|].
  destruct (startMetricsCollection _); [discriminate|].
  intros Hnew. injection Hnew as <-. cbn.
  repeat split; try discriminate; eauto.
  intros chain. eexists. repeat split.
Qed.

Lemma constructed_plugin_connects_by_createAPI_witness :
  @transactMnemonicString Fixture.typed_client (inst_plugin Sample.fresh)
    Fixture.by_mnemonic [Fixture.note Fixture.ok_events (InBlock [1%N])]
  = ([], Throws not_connected).
Proof.
  destruct (@constructed_plugin_connects_by_createAPI Fixture.typed_client
              Sample.ws_provider Sample.logger Sample.metrics
              Sample.opts Sample.fresh eq_refl)
    as (_ & Hkeypair & _).
  apply Hkeypair.
Defined.

(** ** Web services *)

Lemma getOrCreateWebServices_again (this : PluginInstance) :
  getOrCreateWebServices (getOrCreateWebServices this).2 =
    ((getOrCreateWebServices this).1, (getOrCreateWebServices this).2).
Proof.
  unfold getOrCreateWebServices.
  destruct (inst_endpoints this) as [endpoints|] eqn:He; cbn.
  - now rewrite He.
  - reflexivity.
Qed.

(** X18.  However often [getOrCreateWebServices] is called, every call
    returns the endpoints of the first call, and the plugin object after the
    calls is the one after the first call: the endpoints are created once.
    On a plugin without endpoints these are the six endpoints of the plugin,
    one of each class. *)
Theorem getOrCreateWebServices_creates_once (n : nat) (this : PluginInstance) :
  let first := getOrCreateWebServices this in
  Forall (fun endpoints => endpoints = first.1)
    (repeated_web_services (S n) this).1 /\
  length (repeated_web_services (S n) this).1 = S n /\
  (repeated_web_services (S n) this).2 = first.2 /\
  (inst_endpoints this = None ->
   NoDup first.1 /\ length first.1 = 6 /\ inst_endpoints first.2 = Some first.1).
Proof.
  cbn zeta.
  assert (Hrest : forall m that,
    that = (getOrCreateWebServices this).2 ->
    Forall (fun endpoints => endpoints = (getOrCreateWebServices this).1)
      (repeated_web_services m that).1 /\
    length (repeated_web_services m that).1 = m /\
    (repeated_web_services m that).2 = (getOrCreateWebServices this).2).
  { induction m as [|m IH]; intros that ->; cbn [repeated_web_services].
    - now repeat split.
    - rewrite getOrCreateWebServices_again.
      specialize (IH _ eq_refl).
      destruct (repeated_web_services m (getOrCreateWebServices this).2)
        as [later final]. cbn in *.
      destruct IH as (Hall & Hlen & Hfinal).
      repeat split; [now constructor | now rewrite Hlen | exact Hfinal]. }
  cbn [repeated_web_services].
  specialize (Hrest n _ eq_refl).
  destruct (getOrCreateWebServices this) as [endpoints that] eqn:Hfirst.
  cbn [fst snd] in *.
  destruct (repeated_web_services n that) as [later final]. cbn in *.
  destruct Hrest as (Hall & Hlen & Hfinal).
  split; [now constructor|]. split; [now rewrite Hlen|]. split; [exact Hfinal|].
  intros Hnone. unfold getOrCreateWebServices in Hfirst. rewrite Hnone in Hfirst.
  injection Hfirst as <- <-. cbn. split; [|now split].
  repeat (constructor;
          [rewrite ?elem_of_cons, elem_of_nil; intuition discriminate|]).
  constructor.
Qed.
